(** * PyUtil: the profiling helpers of [profile.py]

    A shallow embedding of [get_df_from_stats], [aggregate_profiling_df],
    [barplot_top_n_functions], [ProfilerWithStatistics.run] and of the
    module-level import block, with the properties the specification states
    about them.

    Conventions of the embedding.
    - A pandas DataFrame is the list of its rows, in index order.
    - Python exceptions are values of [exception]; a computation that may
      raise has type [result A].
    - The time columns are double-precision floats in the source.  The
      development has two layers.  In the first one they are exact
      rationals ([Qc]): it carries the properties that do not depend on
      rounding, the division of [barplot_top_n_functions] being modelled by
      [npfloat] and the standard deviation kept as the square root of a
      rational variance ([StdSqrt]).  In the second one ([Binary64]) they
      are IEEE doubles, with every operation rounded: it carries the
      properties on which rounding decides. *)

From Stdlib Require Import QArith Qcanon ZArith Floats.
From stdpp Require Import base strings list sorting gmap pretty numbers.

Open Scope Qc_scope.

(** A decimal constant of a double stands for the nearest double, as in
    Python. *)
Set Warnings "-inexact-float".

(** ** Python exceptions and the error monad *)

Inductive exception :=
  | AssertionError
  | UnboundLocalError
  | NameError
  | KeyError
  | IndexError
  | ValueError
  | OverflowError
  | AttributeError
  | ImportError
  | OtherError (msg : string).

Inductive result (A : Type) :=
  | Ok (a : A)
  | Raise (e : exception).
Arguments Ok {A} a.
Arguments Raise {A} e.

Global Instance exception_eq_dec : EqDecision exception.
Proof. solve_decision. Defined.

Global Instance result_eq_dec {A} `{EqDecision A} : EqDecision (result A).
Proof. solve_decision. Defined.

Global Instance result_ret : MRet result := λ A a, Ok a.
Global Instance result_bind : MBind result := λ A B f m,
  match m with
  | Ok a => f a
  | Raise e => Raise e
  end.

(** [assert cond] *)
Definition py_assert (cond : bool) : result unit :=
  if cond then Ok tt else Raise AssertionError.

(** Reading a local variable that may not have been assigned yet. *)
Definition load_local {A} (v : option A) : result A :=
  match v with
  | Some a => Ok a
  | None => Raise UnboundLocalError
  end.

(** ** Numbers *)

Definition Qc_of_N (n : N) : Qc := Qc_of_Z (Z.of_N n).
Definition Qc_of_nat (n : nat) : Qc := Qc_of_Z (Z.of_nat n).

(** The result of a numpy float division: dividing by zero does not raise
    but yields [nan] or an infinity. *)
Inductive npfloat :=
  | Finite (q : Qc)
  | NaN
  | PosInf
  | NegInf.

Global Instance npfloat_eq_dec : EqDecision npfloat.
Proof. solve_decision. Defined.

Definition np_div (a b : Qc) : npfloat :=
  if decide (b = 0) then
    if decide (a = 0) then NaN
    else if decide (0 < a) then PosInf else NegInf
  else Finite (a / b).

(** [100 * x] for a numpy float [x]. *)
Definition np_scale (k : Qc) (x : npfloat) : npfloat :=
  match x with
  | Finite q => Finite (k * q)
  | NaN => NaN
  | PosInf => if decide (0 < k) then PosInf else if decide (k = 0) then NaN else NegInf
  | NegInf => if decide (0 < k) then NegInf else if decide (k = 0) then NaN else PosInf
  end.

(** [int(x)]: truncation towards zero; [nan] and the infinities raise. *)
Definition py_int (x : npfloat) : result Z :=
  match x with
  | Finite q => Ok (Z.quot (Qnum (this q)) (Z.pos (Qden (this q))))
  | NaN => Raise ValueError
  | PosInf | NegInf => Raise OverflowError
  end.

(** numpy / pandas [sum]: accumulate from left to right, starting from 0. *)
Definition np_sum (xs : list Qc) : Qc := foldl Qcplus 0 xs.

Definition np_mean (xs : list Qc) : Qc := np_sum xs / Qc_of_nat (length xs).

(** A standard deviation: [nan], or the square root of a variance. *)
Inductive StdVal :=
  | StdNaN
  | StdSqrt (variance : Qc).

Global Instance StdVal_eq_dec : EqDecision StdVal.
Proof. solve_decision. Defined.

(** The groupby [std] (sample standard deviation, one degree of freedom
    removed): [nan] for fewer than two values. *)
Definition np_std (xs : list Qc) : StdVal :=
  if decide (length xs < 2)%nat then StdNaN
  else
    let m := np_mean xs in
    StdSqrt (np_sum ((λ x, (x - m) * (x - m)) <$> xs)
             / Qc_of_nat (length xs - 1)).

(** ** The profiler statistics ([pstats.Stats.stats]) *)

(** A key is [(file, line, function)]. *)
Definition StatsKey : Type := string * Z * string.

(** The callers of a function: for each calling function, its share of the
    counters and times. *)
Definition Callers : Type := list (StatsKey * (N * N * Qc * Qc)).

(** A value is [(cc, nc, tt, ct, callers)]: primitive calls, total calls,
    total self time, total cumulative time, and the callers, which this
    program does not read.  Call counters are non-negative. *)
Record StatsValue := {
  v0 : N;
  v1 : N;
  v2 : Qc;
  v3 : Qc;
  v4 : Callers
}.

(** [stats.stats.items()]: the entries, in the order the dict yields them. *)
Definition Stats : Type := list (StatsKey * StatsValue).

Global Instance StatsValue_eq_dec : EqDecision StatsValue.
Proof. solve_decision. Defined.

(** ** The profiling table *)

Record Row := {
  ncalls : N;
  pcalls : N;
  tot_time : Qc;
  tot_time_per : Qc;
  cum_time : Qc;
  cum_time_per : Qc;
  file : string;
  line : Z;
  function : string;
  flf : string
}.

Global Instance Row_eq_dec : EqDecision Row.
Proof. solve_decision. Defined.

Definition DataFrame : Type := list Row.

Definition newline : string := String (Ascii.ascii_of_nat 10) EmptyString.

(** The list appended to [rows] for one entry [k, v] (lines 69-82, the
    assertion apart). *)
Definition make_row (k : StatsKey) (v : StatsValue) : Row :=
  let fl := k.1.1 in
  let line := k.1.2 in
  let func := k.2 in
  let pcalls := v0 v in
  let ncalls := v1 v in
  let tot_time := v2 v in
  let cum_time := v3 v in
  let tot_time_per :=
    if bool_decide (0 < v0 v)%N then v2 v / Qc_of_N (v0 v) else 0 in
  let cum_time_per :=
    if bool_decide (0 < v0 v)%N then v3 v / Qc_of_N (v0 v) else 0 in
  {| ncalls := ncalls; pcalls := pcalls;
     tot_time := tot_time; tot_time_per := tot_time_per;
     cum_time := cum_time; cum_time_per := cum_time_per;
     file := fl; line := line; function := func;
     flf := fl +:+ ":" +:+ pretty line +:+ newline +:+ func +:+ "()" |}.

(** The body of the loop of [get_df_from_stats] for one entry [k, v]. *)
Definition row_of_entry (k : StatsKey) (v : StatsValue) : result Row :=
  _ ← py_assert (bool_decide (v0 v ≤ v1 v)%N);
  Ok (make_row k v).

(** The loop: [rows] is the list built so far. *)
Fixpoint get_df_loop (items : Stats) (rows : list Row) : result (list Row) :=
  match items with
  | [] => Ok rows
  | (k, v) :: items' =>
      r ← row_of_entry k v;
      get_df_loop items' (rows ++ [r])
  end.

Definition get_df_from_stats (stats : Stats) : result DataFrame :=
  get_df_loop stats [].

(** ** The aggregated table *)

(** The numeric columns of a profiling table.  The string columns [file]
    and [function] are dropped by the aggregation, [flf] is the group key. *)
Inductive Column :=
  | Col_ncalls
  | Col_pcalls
  | Col_tot_time
  | Col_tot_time_per
  | Col_cum_time
  | Col_cum_time_per
  | Col_line.

Global Instance Column_eq_dec : EqDecision Column.
Proof. solve_decision. Defined.

Definition numeric_columns : list Column :=
  [Col_ncalls; Col_pcalls; Col_tot_time; Col_tot_time_per;
   Col_cum_time; Col_cum_time_per; Col_line].

Definition column_name (c : Column) : string :=
  match c with
  | Col_ncalls => "ncalls"
  | Col_pcalls => "pcalls"
  | Col_tot_time => "tot_time"
  | Col_tot_time_per => "tot_time_per"
  | Col_cum_time => "cum_time"
  | Col_cum_time_per => "cum_time_per"
  | Col_line => "line"
  end.

(** Looking a column up by name: [df[(name, 'mean')]] raises [KeyError]
    when there is no such column. *)
Definition column_of_name (name : string) : result Column :=
  match list_find (λ c, column_name c = name) numeric_columns with
  | Some (_, c) => Ok c
  | None => Raise KeyError
  end.

(** The value of a numeric column in a row, as a number. *)
Definition col_value (c : Column) (r : Row) : Qc :=
  match c with
  | Col_ncalls => Qc_of_N (ncalls r)
  | Col_pcalls => Qc_of_N (pcalls r)
  | Col_tot_time => tot_time r
  | Col_tot_time_per => tot_time_per r
  | Col_cum_time => cum_time r
  | Col_cum_time_per => cum_time_per r
  | Col_line => Qc_of_Z (line r)
  end.

(** The three statistics [agg([np.mean, np.std, 'count'])] computes. *)
Record Agg := {
  agg_mean : Qc;
  agg_std : StdVal;
  agg_count : nat
}.

Global Instance Agg_eq_dec : EqDecision Agg.
Proof. solve_decision. Defined.

Record AggCols := {
  ag_ncalls : Agg;
  ag_pcalls : Agg;
  ag_tot_time : Agg;
  ag_tot_time_per : Agg;
  ag_cum_time : Agg;
  ag_cum_time_per : Agg;
  ag_line : Agg
}.

Global Instance AggCols_eq_dec : EqDecision AggCols.
Proof. solve_decision. Defined.

Definition agg_get (c : Column) (a : AggCols) : Agg :=
  match c with
  | Col_ncalls => ag_ncalls a
  | Col_pcalls => ag_pcalls a
  | Col_tot_time => ag_tot_time a
  | Col_tot_time_per => ag_tot_time_per a
  | Col_cum_time => ag_cum_time a
  | Col_cum_time_per => ag_cum_time_per a
  | Col_line => ag_line a
  end.

(** The frame [groupby(['flf']).agg(...)] returns: indexed by the label. *)
Definition GroupedFrame : Type := list (string * AggCols).

(** A row of the frame after [reset_index()]: the label is a column. *)
Record AggRow := {
  a_flf : string;
  a_cols : AggCols
}.

Global Instance AggRow_eq_dec : EqDecision AggRow.
Proof. solve_decision. Defined.

Definition AggFrame : Type := list AggRow.

(** [df[(c, 'mean')]] and [df[(c, 'std')]] at one row. *)
Definition mean_of (c : Column) (a : AggRow) : Qc := agg_mean (agg_get c (a_cols a)).
Definition std_of (c : Column) (a : AggRow) : StdVal := agg_std (agg_get c (a_cols a)).

(** *** [aggregate_profiling_df] *)

(** The group keys: the distinct labels, sorted (groupby sorts its keys). *)
Definition group_keys (df : DataFrame) : list string :=
  merge_sort String.le (remove_dups (flf <$> df)).

(** The rows of one group. *)
Definition group (df : DataFrame) (k : string) : list Row :=
  filter (λ r, flf r = k) df.

Definition agg_column (g : list Row) (c : Column) : Agg :=
  let xs := col_value c <$> g in
  {| agg_mean := np_mean xs; agg_std := np_std xs; agg_count := length xs |}.

Definition agg_group (g : list Row) : AggCols :=
  {| ag_ncalls := agg_column g Col_ncalls;
     ag_pcalls := agg_column g Col_pcalls;
     ag_tot_time := agg_column g Col_tot_time;
     ag_tot_time_per := agg_column g Col_tot_time_per;
     ag_cum_time := agg_column g Col_cum_time;
     ag_cum_time_per := agg_column g Col_cum_time_per;
     ag_line := agg_column g Col_line |}.

(** [df.groupby(['flf'], as_index=False).agg([np.mean, np.std, 'count'])] *)
Definition groupby_agg (df : DataFrame) : GroupedFrame :=
  (λ k, (k, agg_group (group df k))) <$> group_keys df.

(** [df.reset_index()] *)
Definition reset_index (g : GroupedFrame) : AggFrame :=
  (λ kc, {| a_flf := kc.1; a_cols := kc.2 |}) <$> g.

Definition aggregate_profiling_df (df : DataFrame) : AggFrame :=
  let df := groupby_agg df in
  let df := reset_index df in
  df.

(** *** [aggregate_profiling_df] on objects

    DataFrames are heap objects and a variable holds a reference.  Every
    pandas call of [aggregate_profiling_df] returns a new object. *)

Definition loc : Type := positive.

Inductive PyObject :=
  | ObjDataFrame (rows : DataFrame)
  | ObjGrouped (rows : GroupedFrame)
  | ObjAggFrame (rows : AggFrame).

Abbreviation Heap := (gmap loc PyObject).

Definition alloc (o : PyObject) (h : Heap) : loc * Heap :=
  let l := fresh (dom h) in (l, <[l := o]> h).

Definition aggregate_profiling_df_obj (df : loc) (h : Heap) : result loc * Heap :=
  match h !! df with
  | Some (ObjDataFrame rows) =>
      let '(df1, h1) := alloc (ObjGrouped (groupby_agg rows)) h in
      match h1 !! df1 with
      | Some (ObjGrouped g) =>
          let '(df2, h2) := alloc (ObjAggFrame (reset_index g)) h1 in
          (Ok df2, h2)
      | _ => (Raise AttributeError, h1)
      end
  | _ => (Raise AttributeError, h)
  end.

(** ** Module globals *)

(** The names bound at module level when a function body runs. *)
Definition Globals : Type := list string.

Definition load_global (g : Globals) (name : string) : result unit :=
  if bool_decide (name ∈ g) then Ok tt else Raise NameError.

(** ** [barplot_top_n_functions] *)

(** Descending order on the mean of column [c]. *)
Definition mean_ge (c : Column) : relation AggRow :=
  λ a b, mean_of c b ≤ mean_of c a.

Global Instance mean_ge_dec c : RelDecision (mean_ge c).
Proof. intros a b. unfold mean_ge. apply _. Defined.

(** [df.sort(columns=[s_c], ascending=False)].  pandas does not fix the
    relative order of rows with equal keys. *)
Definition df_sort_desc (s_c : Column) (df : AggFrame) : AggFrame :=
  merge_sort (mean_ge s_c) df.

(** [x.iloc[0:n]], with Python's reading of a negative stop. *)
Definition iloc_0 {A} (n : Z) (l : list A) : list A :=
  if decide (0 ≤ n)%Z then take (Z.to_nat n) l
  else take (length l - Z.to_nat (- n)) l.

(** [df[(c, 'mean')].sum()] *)
Definition mean_sum (c : Column) (df : AggFrame) : Qc :=
  np_sum (mean_of c <$> df).

(** The local variables of lines 38-47. *)
Record BarplotLocals := {
  total_time : Qc;
  data : AggFrame;
  topn_time : Qc;
  frac_time : npfloat;
  errs : option (list StdVal)
}.

Definition barplot_locals (df : AggFrame) (n : Z) (s_c : Column)
    (show_std : bool) : BarplotLocals :=
  let tt := Col_tot_time in
  let total_time := mean_sum tt df in
  let data := iloc_0 n (df_sort_desc s_c df) in
  let topn_time := mean_sum tt data in
  let frac_time := np_div topn_time total_time in
  let errs := if show_std then Some (std_of s_c <$> data) else None in
  {| total_time := total_time; data := data; topn_time := topn_time;
     frac_time := frac_time; errs := errs |}.

(** What the returned figure shows. *)
Record Figure := {
  fig_bars : list (string * Qc);
  fig_xerr : option (list StdVal);
  fig_xlabel : string;
  fig_ylabel : string;
  fig_text : string
}.

Global Instance Figure_eq_dec : EqDecision Figure.
Proof. solve_decision. Defined.

(** [txt = str(int(100*frac_time)) + "% of total runtime"] *)
Definition annotation (frac_time : npfloat) : result string :=
  pct ← py_int (np_scale (Qc_of_Z 100) frac_time);
  Ok (pretty pct +:+ "% of total runtime").

Definition barplot_top_n_functions (g : Globals) (df : AggFrame) (n : Z)
    (sort_criterium : string) (show_std : bool) : result Figure :=
  s_c ← column_of_name sort_criterium;
  let l := barplot_locals df n s_c show_std in
  _ ← load_global g "plt";
  _ ← load_global g "sns";
  let bars := (λ a, (a_flf a, mean_of s_c a)) <$> data l in
  (* rect = ax.patches[0] *)
  _ ← (if bars is [] then Raise IndexError else Ok tt);
  txt ← annotation (frac_time l);
  Ok {| fig_bars := bars; fig_xerr := errs l;
        fig_xlabel := sort_criterium +:+ " [s]"; fig_ylabel := EmptyString;
        fig_text := txt |}.

(** ** [ProfilerWithStatistics.run] *)

(** One profiled call: the statistics [pstats.Stats(pr).strip_dirs()] holds
    after repetition [rep], or the exception [function_name] raises. *)
Definition ProfiledCall : Type := nat → result Stats.

(** [pd.concat(frames, ignore_index=True)] *)
Definition pd_concat (frames : list DataFrame) : DataFrame := concat frames.

(** The local variables of [run]; [df] and [pr] are unbound at first. *)
Record RunLocals := {
  first_run : bool;
  df : option DataFrame;
  pr : option Stats
}.

(** The body of the loop of [run]. *)
Definition run_body (function_name : ProfiledCall) (st : RunLocals)
    (rep : nat) : result RunLocals :=
  pr ← function_name rep;
  if first_run st then
    df ← get_df_from_stats pr;
    Ok {| first_run := false; df := Some df; pr := Some pr |}
  else
    df_tmp ← get_df_from_stats pr;
    df ← load_local (df st);
    Ok {| first_run := false; df := Some (pd_concat [df; df_tmp]);
          pr := Some pr |}.

(** [for rep in reps: body] *)
Fixpoint for_loop {S} (body : S → nat → result S) (reps : list nat) (st : S)
    : result S :=
  match reps with
  | [] => Ok st
  | rep :: reps' => st' ← body st rep; for_loop body reps' st'
  end.

(** [xrange(n)] *)
Definition xrange (n : Z) : list nat := seq 0 (Z.to_nat n).

Definition run (n_reps : Z) (function_name : ProfiledCall)
    : result (DataFrame * Stats) :=
  st ← for_loop (run_body function_name) (xrange n_reps)
        {| first_run := true; df := None; pr := None |};
  df ← load_local (df st);
  pr ← load_local (pr st);
  Ok (df, pr).

(** ** Loading the module *)

Inductive PyModule :=
  | numpy
  | pandas
  | seaborn
  | matplotlib_pyplot
  | cProfile
  | pstats.

Global Instance PyModule_eq_dec : EqDecision PyModule.
Proof. solve_decision. Defined.

(** The outcome of [import m]: [None] when it succeeds, else what it raises. *)
Definition Importer : Type := PyModule → option exception.

(** What executing the module makes observable. *)
Inductive Event :=
  | Styled (call : string)
  | Constructed (e : exception) (msg : string)
  | Warned (msg : string).

Global Instance Event_eq_dec : EqDecision Event.
Proof. solve_decision. Defined.

Record ModuleState := {
  globals : Globals;
  trace : list Event
}.

(** Module-level statements: they update the state and may raise. *)
Definition Exec : Type := ModuleState → result unit * ModuleState.

Definition import_as (imp : Importer) (m : PyModule) (name : string) : Exec :=
  λ st,
    match imp m with
    | None => (Ok tt, {| globals := name :: globals st; trace := trace st |})
    | Some e => (Raise e, st)
    end.

(** A call [sns.f(...)] that sets plotting defaults. *)
Definition sns_call (f : string) : Exec :=
  λ st,
    match load_global (globals st) "sns" with
    | Ok _ => (Ok tt, {| globals := globals st; trace := trace st ++ [Styled f] |})
    | Raise e => (Raise e, st)
    end.

(** An expression statement that builds an exception and drops it. *)
Definition construct (e : exception) (msg : string) : Exec :=
  λ st, (Ok tt, {| globals := globals st; trace := trace st ++ [Constructed e msg] |}).

Definition exec_seq (s1 s2 : Exec) : Exec :=
  λ st,
    match s1 st with
    | (Ok _, st') => s2 st'
    | (Raise e, st') => (Raise e, st')
    end.

(** [try: body  except: handler], with a bare [except]. *)
Definition try_except (body handler : Exec) : Exec :=
  λ st,
    match body st with
    | (Ok _, st') => (Ok tt, st')
    | (Raise _, st') => handler st'
    end.

Infix ">>>" := exec_seq (at level 62, right associativity).

(** Lines 8-19 of [profile.py]. *)
Definition module_body (imp : Importer) : Exec :=
  import_as imp numpy "np" >>>
  import_as imp pandas "pd" >>>
  try_except
    (import_as imp seaborn "sns" >>>
     sns_call "set_color_codes" >>>
     sns_call "set" >>>
     sns_call "set_context")
    (construct ImportError "seaborn not found, plotting not available") >>>
  import_as imp matplotlib_pyplot "plt" >>>
  import_as imp cProfile "cProfile" >>>
  import_as imp pstats "pstats".

Definition load_module (imp : Importer) : result unit * ModuleState :=
  module_body imp {| globals := []; trace := [] |}.

(** ** [Timer] (Timer.py) *)

(** The wall clock: [clock i] is the reading at instant [i].  The state of
    a running program is the current instant. *)
Definition Clock : Type := nat → Qc.

(** [time.time()]: reads the clock, and the instant passes. *)
Definition time_time (clock : Clock) (w : nat) : Qc * nat := (clock w, S w).

(** A [Timer] object: an attribute is [None] until it is assigned. *)
Record Timer := {
  start : option Qc;
  end_ : option Qc;
  interval_s : option Qc
}.

Global Instance Timer_eq_dec : EqDecision Timer.
Proof. solve_decision. Defined.

(** [Timer()] *)
Definition Timer_new : Timer :=
  {| start := None; end_ := None; interval_s := None |}.

(** Reading an attribute of an object. *)
Definition getattr {A} (v : option A) : result A :=
  match v with
  | Some a => Ok a
  | None => Raise AttributeError
  end.

Definition __enter__ (clock : Clock) (self : Timer) (w : nat) : Timer * nat :=
  let '(t, w) := time_time clock w in
  ({| start := Some t; end_ := end_ self; interval_s := interval_s self |}, w).

Definition __exit__ (clock : Clock) (self : Timer) (w : nat)
    : result unit * Timer * nat :=
  let '(t, w) := time_time clock w in
  let self := {| start := start self; end_ := Some t;
                 interval_s := interval_s self |} in
  match getattr (start self) with
  | Ok s =>
      (Ok tt, {| start := start self; end_ := end_ self;
                 interval_s := Some (t - s) |}, w)
  | Raise e => (Raise e, self, w)
  end.

(** [with self: body].  [__exit__] runs whether the body returns or raises,
    and it returns [None], so that an exception of the body goes on.  The
    body does not assign to the timer. *)
Definition with_Timer {A} (clock : Clock) (self : Timer)
    (body : nat → result A * nat) (w : nat) : result A * Timer * nat :=
  let '(self, w) := __enter__ clock self w in
  let '(r, w) := body w in
  let '(x, self, w) := __exit__ clock self w in
  match x with
  | Ok _ => (r, self, w)
  | Raise e => (Raise e, self, w)
  end.

(** ** [set_label_size] (plot.py) *)

(** A matplotlib text object. *)
Record Text := {
  get_text : string;
  get_fontsize : Qc
}.

Global Instance Text_eq_dec : EqDecision Text.
Proof. solve_decision. Defined.

(** The label objects an axes object refers to. *)
Record Axes := {
  get_xticklabels : list loc;
  get_yticklabels : list loc;
  xaxis_label : loc;
  yaxis_label : loc
}.

Abbreviation TextHeap := (gmap loc Text).

(** [lab.set_fontsize(fontsize)] *)
Definition set_fontsize (fontsize : Qc) (lab : loc) (h : TextHeap) : TextHeap :=
  alter (λ t, {| get_text := get_text t; get_fontsize := fontsize |}) lab h.

(** The list the loop of [set_label_size] runs over. *)
Definition all_labels (ax : Axes) : list loc :=
  get_xticklabels ax ++ get_yticklabels ax ++ [xaxis_label ax]
  ++ [yaxis_label ax].

Definition set_label_size (ax : Axes) (fontsize : Qc) (h : TextHeap) : TextHeap :=
  foldl (λ h lab, set_fontsize fontsize lab h) h (all_labels ax).

(** [set_label_size(ax)], with the default [fontsize=14]. *)
Definition set_label_size_default (ax : Axes) (h : TextHeap) : TextHeap :=
  set_label_size ax (Qc_of_Z 14) h.

(** ** The binary64 layer

    The same loader, aggregator and renderer with the time columns as IEEE
    doubles ([float]), as the program has them: every sum, quotient and
    product is rounded, and a sum adds its terms from left to right, in row
    order.  This layer carries the properties on which rounding decides. *)

Module Binary64.

(** [float(n)] for a count [n]. *)
Definition of_Z (n : Z) : float := PrimFloat.of_uint63 (Uint63.of_Z n).
Definition of_N (n : N) : float := of_Z (Z.of_N n).
Definition of_nat (n : nat) : float := of_Z (Z.of_nat n).

Definition np_sum (xs : list float) : float := foldl PrimFloat.add 0%float xs.

Definition np_mean (xs : list float) : float :=
  PrimFloat.div (np_sum xs) (of_nat (length xs)).

(** The groupby [std] (one degree of freedom removed); [nan] for fewer
    than two values. *)
Definition np_std (xs : list float) : float :=
  if decide (length xs < 2)%nat then nan
  else
    let m := np_mean xs in
    PrimFloat.sqrt
      (PrimFloat.div
         (np_sum ((λ x, PrimFloat.mul (PrimFloat.sub x m) (PrimFloat.sub x m))
                  <$> xs))
         (of_nat (length xs - 1))).

(** [int(x)]: truncation towards zero; [nan] and the infinities raise. *)
Definition py_int (x : float) : result Z :=
  match Prim2SF x with
  | S754_zero _ => Ok 0%Z
  | S754_infinity _ => Raise OverflowError
  | S754_nan => Raise ValueError
  | S754_finite s m e =>
      let a := Z.shiftl (Z.pos m) e in
      Ok (if s then (- a)%Z else a)
  end.

(** The number a double stands for, as an exact rational (0 for [nan]
    and the infinities, which stand for no number). *)
Definition exact (x : float) : Qc :=
  match Prim2SF x with
  | S754_finite s m e =>
      Q2Qc (inject_Z (if s then Z.neg m else Z.pos m) * Qpower (2 # 1) e)
  | _ => Q2Qc 0
  end.

(** *** The loader *)

Definition Callers : Type := list (StatsKey * (N * N * float * float)).

Record StatsValue := {
  v0 : N;
  v1 : N;
  v2 : float;
  v3 : float;
  v4 : Callers
}.

Definition Stats : Type := list (StatsKey * StatsValue).

Record Row := {
  ncalls : N;
  pcalls : N;
  tot_time : float;
  tot_time_per : float;
  cum_time : float;
  cum_time_per : float;
  file : string;
  line : Z;
  function : string;
  flf : string
}.

Definition DataFrame : Type := list Row.

Definition make_row (k : StatsKey) (v : StatsValue) : Row :=
  let fl := k.1.1 in
  let line := k.1.2 in
  let func := k.2 in
  let pcalls := v0 v in
  let ncalls := v1 v in
  let tot_time := v2 v in
  let cum_time := v3 v in
  let tot_time_per :=
    if bool_decide (0 < v0 v)%N then PrimFloat.div (v2 v) (of_N (v0 v))
    else 0%float in
  let cum_time_per :=
    if bool_decide (0 < v0 v)%N then PrimFloat.div (v3 v) (of_N (v0 v))
    else 0%float in
  {| ncalls := ncalls; pcalls := pcalls;
     tot_time := tot_time; tot_time_per := tot_time_per;
     cum_time := cum_time; cum_time_per := cum_time_per;
     file := fl; line := line; function := func;
     flf := fl +:+ ":" +:+ pretty line +:+ newline +:+ func +:+ "()" |}.

Definition row_of_entry (k : StatsKey) (v : StatsValue) : result Row :=
  _ ← py_assert (bool_decide (v0 v ≤ v1 v)%N);
  Ok (make_row k v).

Fixpoint get_df_loop (items : Stats) (rows : list Row) : result (list Row) :=
  match items with
  | [] => Ok rows
  | (k, v) :: items' =>
      r ← row_of_entry k v;
      get_df_loop items' (rows ++ [r])
  end.

Definition get_df_from_stats (stats : Stats) : result DataFrame :=
  get_df_loop stats [].

(** *** The aggregator *)

Definition col_value (c : Column) (r : Row) : float :=
  match c with
  | Col_ncalls => of_N (ncalls r)
  | Col_pcalls => of_N (pcalls r)
  | Col_tot_time => tot_time r
  | Col_tot_time_per => tot_time_per r
  | Col_cum_time => cum_time r
  | Col_cum_time_per => cum_time_per r
  | Col_line => of_Z (line r)
  end.

Record Agg := {
  agg_mean : float;
  agg_std : float;
  agg_count : nat
}.

Record AggCols := {
  ag_ncalls : Agg;
  ag_pcalls : Agg;
  ag_tot_time : Agg;
  ag_tot_time_per : Agg;
  ag_cum_time : Agg;
  ag_cum_time_per : Agg;
  ag_line : Agg
}.

Definition agg_get (c : Column) (a : AggCols) : Agg :=
  match c with
  | Col_ncalls => ag_ncalls a
  | Col_pcalls => ag_pcalls a
  | Col_tot_time => ag_tot_time a
  | Col_tot_time_per => ag_tot_time_per a
  | Col_cum_time => ag_cum_time a
  | Col_cum_time_per => ag_cum_time_per a
  | Col_line => ag_line a
  end.

Definition GroupedFrame : Type := list (string * AggCols).

Record AggRow := {
  a_flf : string;
  a_cols : AggCols
}.

Definition AggFrame : Type := list AggRow.

Definition mean_of (c : Column) (a : AggRow) : float :=
  agg_mean (agg_get c (a_cols a)).
Definition std_of (c : Column) (a : AggRow) : float :=
  agg_std (agg_get c (a_cols a)).

Definition group_keys (df : DataFrame) : list string :=
  merge_sort String.le (remove_dups (flf <$> df)).

Definition group (df : DataFrame) (k : string) : list Row :=
  filter (λ r, flf r = k) df.

Definition agg_column (g : list Row) (c : Column) : Agg :=
  let xs := col_value c <$> g in
  {| agg_mean := np_mean xs; agg_std := np_std xs; agg_count := length xs |}.

Definition agg_group (g : list Row) : AggCols :=
  {| ag_ncalls := agg_column g Col_ncalls;
     ag_pcalls := agg_column g Col_pcalls;
     ag_tot_time := agg_column g Col_tot_time;
     ag_tot_time_per := agg_column g Col_tot_time_per;
     ag_cum_time := agg_column g Col_cum_time;
     ag_cum_time_per := agg_column g Col_cum_time_per;
     ag_line := agg_column g Col_line |}.

Definition groupby_agg (df : DataFrame) : GroupedFrame :=
  (λ k, (k, agg_group (group df k))) <$> group_keys df.

Definition reset_index (g : GroupedFrame) : AggFrame :=
  (λ kc, {| a_flf := kc.1; a_cols := kc.2 |}) <$> g.

Definition aggregate_profiling_df (df : DataFrame) : AggFrame :=
  let df := groupby_agg df in
  let df := reset_index df in
  df.

(** *** The renderer *)

Definition mean_ge (c : Column) : relation AggRow :=
  λ a b, PrimFloat.leb (mean_of c b) (mean_of c a) = true.

Global Instance mean_ge_dec c : RelDecision (mean_ge c).
Proof. intros a b. unfold mean_ge. apply _. Defined.

Definition df_sort_desc (s_c : Column) (df : AggFrame) : AggFrame :=
  merge_sort (mean_ge s_c) df.

Definition mean_sum (c : Column) (df : AggFrame) : float :=
  np_sum (mean_of c <$> df).

Record BarplotLocals := {
  total_time : float;
  data : AggFrame;
  topn_time : float;
  frac_time : float;
  errs : option (list float)
}.

Definition barplot_locals (df : AggFrame) (n : Z) (s_c : Column)
    (show_std : bool) : BarplotLocals :=
  let tt := Col_tot_time in
  let total_time := mean_sum tt df in
  let data := iloc_0 n (df_sort_desc s_c df) in
  let topn_time := mean_sum tt data in
  let frac_time := PrimFloat.div topn_time total_time in
  let errs := if show_std then Some (std_of s_c <$> data) else None in
  {| total_time := total_time; data := data; topn_time := topn_time;
     frac_time := frac_time; errs := errs |}.

Record Figure := {
  fig_bars : list (string * float);
  fig_xerr : option (list float);
  fig_xlabel : string;
  fig_ylabel : string;
  fig_text : string
}.

Definition annotation (frac_time : float) : result string :=
  pct ← py_int (PrimFloat.mul 100%float frac_time);
  Ok (pretty pct +:+ "% of total runtime").

Definition barplot_top_n_functions (g : Globals) (df : AggFrame) (n : Z)
    (sort_criterium : string) (show_std : bool) : result Figure :=
  s_c ← column_of_name sort_criterium;
  let l := barplot_locals df n s_c show_std in
  _ ← load_global g "plt";
  _ ← load_global g "sns";
  let bars := (λ a, (a_flf a, mean_of s_c a)) <$> data l in
  (* rect = ax.patches[0] *)
  _ ← (if bars is [] then Raise IndexError else Ok tt);
  txt ← annotation (frac_time l);
  Ok {| fig_bars := bars; fig_xerr := errs l;
        fig_xlabel := sort_criterium +:+ " [s]"; fig_ylabel := EmptyString;
        fig_text := txt |}.

End Binary64.


(** ** Example data *)

(** A dump with functions A (self 6.0 s, 3 calls), B (self 3.0 s, 1 call)
    and C (self 1.0 s, 1 call). *)
Definition dump_ABC : Stats :=
  [ (("script.py"%string, 1%Z, "A"%string),
     {| v0 := 3; v1 := 3; v2 := Qc_of_Z 6; v3 := Qc_of_Z 6; v4 := [] |});
    (("script.py"%string, 5%Z, "B"%string),
     {| v0 := 1; v1 := 1; v2 := Qc_of_Z 3; v3 := Qc_of_Z 3; v4 := [] |});
    (("script.py"%string, 9%Z, "C"%string),
     {| v0 := 1; v1 := 1; v2 := Qc_of_Z 1; v3 := Qc_of_Z 1; v4 := [] |}) ].

Definition label_A : string := "script.py:1" +:+ newline +:+ "A()".
Definition label_B : string := "script.py:5" +:+ newline +:+ "B()".

(** The module globals after a load in which every import succeeded. *)
Definition all_globals : Globals :=
  ["pstats"; "cProfile"; "plt"; "sns"; "pd"; "np"]%string.

(** Every import succeeds. *)
Definition import_all : Importer := λ _, None.

(** Every import succeeds, except that of seaborn. *)
Definition import_no_seaborn : Importer :=
  λ m, if decide (m = seaborn) then Some ImportError else None.

(** A dump whose second entry has more primitive calls than calls. *)
Definition dump_bad : Stats :=
  [ (("script.py"%string, 1%Z, "A"%string),
     {| v0 := 3; v1 := 3; v2 := Qc_of_Z 6; v3 := Qc_of_Z 6; v4 := [] |});
    (("script.py"%string, 5%Z, "B"%string),
     {| v0 := 2; v1 := 1; v2 := Qc_of_Z 3; v3 := Qc_of_Z 3; v4 := [] |}) ].

(** Counters of an entry are consistent: primitive calls do not exceed calls. *)
Definition consistent (kv : StatsKey * StatsValue) : Prop :=
  (v0 kv.2 ≤ v1 kv.2)%N.

Global Instance consistent_dec kv : Decision (consistent kv).
Proof. unfold consistent. apply _. Defined.

(** A dump of a function [main] (self 1 s, cumulative 5 s) that spends the
    rest of its time in [helper] (self 4 s, cumulative 4 s). *)
Definition dump_nested : Stats :=
  [ (("script.py"%string, 1%Z, "main"%string),
     {| v0 := 1; v1 := 1; v2 := Qc_of_Z 1; v3 := Qc_of_Z 5; v4 := [] |});
    (("script.py"%string, 7%Z, "helper"%string),
     {| v0 := 2; v1 := 2; v2 := Qc_of_Z 4; v3 := Qc_of_Z 4; v4 := [] |}) ].

(** A dump of one function, too fast for the clock: all times are 0. *)
Definition dump_idle : Stats :=
  [ (("script.py"%string, 1%Z, "A"%string),
     {| v0 := 1; v1 := 1; v2 := Qc_of_Z 0; v3 := Qc_of_Z 0; v4 := [] |}) ].

(** The dump of A, B and C again, with the functions defined at the lines
    [la], [lb] and [lc] of the file; [dump_ABC] is [dump_at 1 5 9]. *)
Definition dump_at (la lb lc : Z) : Stats :=
  [ (("script.py"%string, la, "A"%string),
     {| v0 := 3; v1 := 3; v2 := Qc_of_Z 6; v3 := Qc_of_Z 6; v4 := [] |});
    (("script.py"%string, lb, "B"%string),
     {| v0 := 1; v1 := 1; v2 := Qc_of_Z 3; v3 := Qc_of_Z 3; v4 := [] |});
    (("script.py"%string, lc, "C"%string),
     {| v0 := 1; v1 := 1; v2 := Qc_of_Z 1; v3 := Qc_of_Z 1; v4 := [] |}) ].

(** The label of the function [func] defined at line [l] of that file. *)
Definition label_at (l : Z) (func : string) : string :=
  "script.py:" +:+ pretty l +:+ newline +:+ func +:+ "()".

(** The ways of placing A, B and C at the lines 1, 5 and 9: the labels,
    which groupby sorts, then come in each of the six possible orders. *)
Definition placements : list (Z * Z * Z) :=
  [(1, 5, 9); (1, 9, 5); (5, 1, 9); (5, 9, 1); (9, 1, 5); (9, 5, 1)]%Z.

(** The same dump with its times as doubles. *)
Definition dump_at64 (la lb lc : Z) : Binary64.Stats :=
  [ (("script.py"%string, la, "A"%string),
     {| Binary64.v0 := 3; Binary64.v1 := 3; Binary64.v2 := 6%float;
        Binary64.v3 := 6%float; Binary64.v4 := [] |});
    (("script.py"%string, lb, "B"%string),
     {| Binary64.v0 := 1; Binary64.v1 := 1; Binary64.v2 := 3%float;
        Binary64.v3 := 3%float; Binary64.v4 := [] |});
    (("script.py"%string, lc, "C"%string),
     {| Binary64.v0 := 1; Binary64.v1 := 1; Binary64.v2 := 1%float;
        Binary64.v3 := 1%float; Binary64.v4 := [] |}) ].

(** The dump [dump_ABC], with a caller recorded for A. *)
Definition dump_ABC_callers : Stats :=
  [ (("script.py"%string, 1%Z, "A"%string),
     {| v0 := 3; v1 := 3; v2 := Qc_of_Z 6; v3 := Qc_of_Z 6;
        v4 := [(("script.py"%string, 20%Z, "main"%string),
                (3%N, 3%N, Qc_of_Z 6, Qc_of_Z 6))] |});
    (("script.py"%string, 5%Z, "B"%string),
     {| v0 := 1; v1 := 1; v2 := Qc_of_Z 3; v3 := Qc_of_Z 3; v4 := [] |});
    (("script.py"%string, 9%Z, "C"%string),
     {| v0 := 1; v1 := 1; v2 := Qc_of_Z 1; v3 := Qc_of_Z 1; v4 := [] |}) ].

(** Two entries with the same key, the same call counters and the same
    times; their callers may differ. *)
Definition same_entry (e1 e2 : StatsKey * StatsValue) : Prop :=
  e1.1 = e2.1 ∧ v0 e1.2 = v0 e2.2 ∧ v1 e1.2 = v1 e2.2 ∧ v2 e1.2 = v2 e2.2
  ∧ v3 e1.2 = v3 e2.2.






(** The rows of a dump whose entries are all consistent. *)
Definition rows_of (stats : Stats) : DataFrame :=
  (λ kv, make_row kv.1 kv.2) <$> stats.

(** * Properties *)

(** Closing a decidable goal on concrete data by evaluation. *)
Ltac by_eval := apply (bool_decide_unpack _); vm_compute; exact I.

(** ** [get_df_from_stats] *)

Lemma row_of_entry_consistent k v :
  (v0 v ≤ v1 v)%N → row_of_entry k v = Ok (make_row k v).
Proof.
  intros Hle. unfold row_of_entry, py_assert.
  rewrite bool_decide_eq_true_2 by done. reflexivity.
Qed.

Lemma row_of_entry_inconsistent k v :
  (v1 v < v0 v)%N → row_of_entry k v = Raise AssertionError.
Proof.
  intros Hlt. unfold row_of_entry, py_assert.
  rewrite bool_decide_eq_false_2 by lia. reflexivity.
Qed.

Lemma row_of_entry_cases k v :
  row_of_entry k v = Ok (make_row k v) ∧ (v0 v ≤ v1 v)%N
  ∨ row_of_entry k v = Raise AssertionError ∧ (v1 v < v0 v)%N.
Proof.
  destruct (decide (v0 v ≤ v1 v)%N) as [Hle|Hgt].
  - left. split; [by apply row_of_entry_consistent | done].
  - right. split; [apply row_of_entry_inconsistent; lia | lia].
Qed.

(** On consistent entries the loop appends one row per entry, in order. *)
Lemma get_df_loop_consistent items rows :
  Forall consistent items →
  get_df_loop items rows = Ok (rows ++ rows_of items).
Proof.
  intros Hall. revert rows.
  induction Hall as [|[k v] items Hkv _ IH]; intros rows; simpl.
  - by rewrite app_nil_r.
  - rewrite row_of_entry_consistent by exact Hkv. simpl.
    rewrite IH, <- app_assoc. reflexivity.
Qed.

(** An inconsistent entry anywhere makes the loop raise. *)
Lemma get_df_loop_inconsistent items rows :
  Exists (λ kv, ¬ consistent kv) items →
  get_df_loop items rows = Raise AssertionError.
Proof.
  intros Hex. revert rows.
  induction Hex as [[k v] items Hkv | [k v] items _ IH]; intros rows; simpl.
  - unfold consistent in Hkv. simpl in Hkv.
    rewrite row_of_entry_inconsistent by lia. reflexivity.
  - destruct (row_of_entry_cases k v) as [[-> _] | [-> _]]; simpl; [apply IH | done].
Qed.

Lemma get_df_from_stats_consistent stats :
  Forall consistent stats →
  get_df_from_stats stats = Ok (rows_of stats).
Proof. intros H. unfold get_df_from_stats. by rewrite get_df_loop_consistent. Qed.

(** The loader returns only when every entry is consistent. *)
Lemma get_df_from_stats_Ok_inv stats df :
  get_df_from_stats stats = Ok df →
  Forall consistent stats ∧ df = rows_of stats.
Proof.
  intros Hok.
  destruct (decide (Forall consistent stats)) as [Hall | Hnot].
  - split; [done |]. rewrite get_df_from_stats_consistent in Hok by done. congruence.
  - apply not_Forall_Exists in Hnot; [| apply _].
    unfold get_df_from_stats in Hok.
    rewrite get_df_loop_inconsistent in Hok by done. discriminate.
Qed.

(** C2. For every entry the loader converts, the per-call self time of its
    row is the total self time divided by the primitive call count when that
    count is not zero, and exactly 0 when it is zero; likewise the per-call
    cumulative time, with the total cumulative time as numerator. *)
Theorem per_call_times (stats : Stats) (df : DataFrame) :
  get_df_from_stats stats = Ok df →
  Forall2 (λ kv r,
      pcalls r = v0 kv.2 ∧ tot_time r = v2 kv.2 ∧ cum_time r = v3 kv.2 ∧
      (v0 kv.2 ≠ 0%N →
         tot_time_per r = v2 kv.2 / Qc_of_N (v0 kv.2) ∧
         cum_time_per r = v3 kv.2 / Qc_of_N (v0 kv.2)) ∧
      (v0 kv.2 = 0%N → tot_time_per r = 0 ∧ cum_time_per r = 0))
    stats df.
Proof.
  intros Hok. apply get_df_from_stats_Ok_inv in Hok as [_ ->].
  apply Forall2_fmap_r, Forall_Forall2_diag, Forall_forall.
  intros [k v] _. simpl. repeat split.
  - rewrite bool_decide_eq_true_2 by lia. reflexivity.
  - rewrite bool_decide_eq_true_2 by lia. reflexivity.
  - rewrite bool_decide_eq_false_2 by lia. reflexivity.
  - rewrite bool_decide_eq_false_2 by lia. reflexivity.
Qed.

Lemma per_call_times_witness :
  ∃ df, get_df_from_stats dump_ABC = Ok df ∧
  Forall2 (λ kv r,
      pcalls r = v0 kv.2 ∧ tot_time r = v2 kv.2 ∧ cum_time r = v3 kv.2 ∧
      (v0 kv.2 ≠ 0%N →
         tot_time_per r = v2 kv.2 / Qc_of_N (v0 kv.2) ∧
         cum_time_per r = v3 kv.2 / Qc_of_N (v0 kv.2)) ∧
      (v0 kv.2 = 0%N → tot_time_per r = 0 ∧ cum_time_per r = 0))
    dump_ABC df.
Proof.
  eexists. split; [reflexivity |].
  apply (per_call_times dump_ABC). reflexivity.
Defined.

(** C3. If some entry has a primitive call count above its call count the
    loader raises [AssertionError] and returns no table; if every entry has
    primitive calls at most calls the loader returns a table with one row
    per entry. *)
Theorem loader_assertion (stats : Stats) :
  (Exists (λ kv, (v1 kv.2 < v0 kv.2)%N) stats →
     get_df_from_stats stats = Raise AssertionError) ∧
  (Forall (λ kv, (v0 kv.2 ≤ v1 kv.2)%N) stats →
     ∃ df, get_df_from_stats stats = Ok df ∧ length df = length stats).
Proof.
  split.
  - intros Hex. apply get_df_loop_inconsistent.
    eapply Exists_impl; [| exact Hex].
    intros kv Hlt. unfold consistent. simpl in Hlt. lia.
  - intros Hall. eexists. split.
    + apply get_df_from_stats_consistent. exact Hall.
    + unfold rows_of. by rewrite length_fmap.
Qed.

Lemma loader_assertion_witness :
  get_df_from_stats dump_bad = Raise AssertionError ∧
  ∃ df, get_df_from_stats dump_ABC = Ok df ∧ length df = length dump_ABC.
Proof.
  split.
  - apply (proj1 (loader_assertion dump_bad)).
    apply Exists_cons_tl, Exists_cons_hd. vm_compute. reflexivity.
  - apply (proj2 (loader_assertion dump_ABC)).
    repeat constructor; vm_compute; discriminate.
Defined.

(** ** [ProfilerWithStatistics.run] *)

Lemma last_cons_from_option {A} (x : A) (l : list A) (p : option A) :
  from_option Some p (list.last (x :: l))
  = from_option Some (Some x) (list.last l).
Proof.
  destruct l as [|y l]; [done |]. rewrite last_cons_cons.
  destruct (list.last (y :: l)) eqn:E; [done |].
  apply last_None in E. discriminate.
Qed.

Lemma last_cons_Some {A} (x : A) (l : list A) :
  list.last (x :: l) = from_option Some (Some x) (list.last l).
Proof.
  rewrite <- (last_cons_from_option x l None).
  destruct (list.last (x :: l)) eqn:E; [done |].
  apply last_None in E. discriminate.
Qed.

(** One repetition after the first one appends the rows of its profile. *)
Lemma run_body_later function_name rep s d p :
  function_name rep = Ok s → Forall consistent s →
  run_body function_name {| first_run := false; df := Some d; pr := p |} rep
  = Ok {| first_run := false; df := Some (d ++ rows_of s); pr := Some s |}.
Proof.
  intros Hf Hs. unfold run_body. rewrite Hf. simpl.
  rewrite get_df_from_stats_consistent by done. simpl.
  unfold pd_concat. simpl. by rewrite app_nil_r.
Qed.

(** The first repetition initialises the table. *)
Lemma run_body_first function_name rep s :
  function_name rep = Ok s → Forall consistent s →
  run_body function_name {| first_run := true; df := None; pr := None |} rep
  = Ok {| first_run := false; df := Some (rows_of s); pr := Some s |}.
Proof.
  intros Hf Hs. unfold run_body. rewrite Hf. simpl.
  by rewrite get_df_from_stats_consistent.
Qed.

(** The repetitions [a, a+1, ...] that observe the profiles [profs], run
    from a state whose table is already bound. *)
Lemma for_loop_run_body function_name profs : ∀ a d p,
  (∀ i s, profs !! i = Some s →
     function_name (a + i)%nat = Ok s ∧ Forall consistent s) →
  for_loop (run_body function_name) (seq a (length profs))
    {| first_run := false; df := Some d; pr := p |}
  = Ok {| first_run := false;
          df := Some (d ++ concat (rows_of <$> profs));
          pr := from_option Some p (list.last profs) |}.
Proof.
  induction profs as [|s profs IH]; intros a d p Hprofs; simpl.
  - by rewrite app_nil_r.
  - destruct (Hprofs 0%nat s eq_refl) as [Hf Hs].
    rewrite Nat.add_0_r in Hf.
    rewrite (run_body_later _ _ s) by done. simpl.
    rewrite IH.
    + rewrite <- app_assoc, last_cons_from_option. reflexivity.
    + intros i s' Hi. replace (S a + i)%nat with (a + S i)%nat by lia.
      apply (Hprofs (S i)). exact Hi.
Qed.

Lemma length_concat_rows (profs : list Stats) (K : nat) :
  Forall (λ s, length s = K) profs →
  length (concat (rows_of <$> profs)) = (length profs * K)%nat.
Proof.
  induction 1 as [|s l Hs _ IH]; [done |].
  change (length (rows_of s ++ concat (rows_of <$> l)) = (S (length l) * K)%nat).
  rewrite length_app, IH. unfold rows_of. rewrite length_fmap.
  simpl in Hs. rewrite Hs. reflexivity.
Qed.

(** C4. With [n_reps = R >= 1] and a callable whose profile has [K] entries
    on each of the [R] repetitions, [run] returns the concatenation of the
    rows of every repetition, [R * K] rows in all, together with the
    statistics of the last repetition only. *)
Theorem run_rows (R : Z) (K : nat) (function_name : ProfiledCall)
    (profs : list Stats) :
  (1 ≤ R)%Z →
  length profs = Z.to_nat R →
  (∀ rep s, profs !! rep = Some s →
     function_name rep = Ok s ∧ length s = K ∧ Forall consistent s) →
  ∃ df last_stats,
    run R function_name = Ok (df, last_stats) ∧
    list.last profs = Some last_stats ∧
    df = concat (rows_of <$> profs) ∧
    length df = (Z.to_nat R * K)%nat.
Proof.
  intros HR Hlen Hprofs.
  destruct profs as [|s0 profs]; [simpl in Hlen; lia |].
  destruct (Hprofs 0%nat s0 eq_refl) as (Hf0 & _ & Hs0).
  assert (Hloop :
    for_loop (run_body function_name) (xrange R)
      {| first_run := true; df := None; pr := None |}
    = Ok {| first_run := false;
            df := Some (concat (rows_of <$> s0 :: profs));
            pr := list.last (s0 :: profs) |}).
  { unfold xrange. rewrite <- Hlen. simpl.
    rewrite (run_body_first _ _ s0) by done. simpl.
    rewrite for_loop_run_body.
    - do 2 f_equal. symmetry. apply last_cons_Some.
    - intros i s Hi. destruct (Hprofs (S i) s Hi) as (? & _ & ?). done. }
  destruct (list.last (s0 :: profs)) as [sl|] eqn:Hlast.
  2: { apply last_None in Hlast. discriminate. }
  exists (concat (rows_of <$> s0 :: profs)), sl.
  split; [| split; [done | split; [done |]]].
  - unfold run. rewrite Hloop. reflexivity.
  - rewrite <- Hlen. apply length_concat_rows.
    apply Forall_lookup. intros i s Hi. by destruct (Hprofs i s Hi) as (_ & ? & _).
Qed.

Lemma run_rows_witness :
  ∃ df last_stats,
    run 2 (λ _, Ok dump_ABC) = Ok (df, last_stats) ∧
    list.last [dump_ABC; dump_ABC] = Some last_stats ∧
    df = concat (rows_of <$> [dump_ABC; dump_ABC]) ∧
    length df = (Z.to_nat 2 * 3)%nat.
Proof.
  apply (run_rows 2 3 (λ _, Ok dump_ABC) [dump_ABC; dump_ABC]).
  - lia.
  - reflexivity.
  - intros rep s Hs.
    assert (s = dump_ABC) as ->.
    { destruct rep as [|[|rep]]; simpl in Hs; [congruence .. |].
      rewrite lookup_nil in Hs. discriminate. }
    split; [reflexivity | split; [reflexivity |]].
    repeat constructor; vm_compute; discriminate.
Defined.

(** C10. With [n_reps = 0] the loop body never runs, [df] and [pr] are
    unbound at the [return] and [run] raises instead of returning. *)
Theorem run_zero_reps (function_name : ProfiledCall) :
  run 0 function_name = Raise UnboundLocalError.
Proof. reflexivity. Qed.

(** ** Loading the module *)

(** When every import succeeds the module binds all its names and sets the
    plotting defaults. *)
Example load_module_all :
  load_module import_all
  = (Ok tt, {| globals := all_globals;
               trace := [Styled "set_color_codes"; Styled "set";
                         Styled "set_context"] |}).
Proof. reflexivity. Qed.

(** The [try] block of lines 10-16 never raises, whatever its body does. *)
Lemma try_except_construct_Ok (body : Exec) (e : exception) (msg : string)
    (st : ModuleState) :
  (try_except body (construct e msg) st).1 = Ok tt.
Proof.
  unfold try_except, construct.
  destruct (body st) as [[[]|e'] st']; reflexivity.
Qed.

(** C8. If importing seaborn raises (and the other imports succeed), loading
    the module completes: the exception is swallowed, the name [sns] stays
    unbound so that a later call of the plotting function raises
    [NameError], and the warning is only constructed, never raised or
    reported. *)
Theorem seaborn_import_failure (imp : Importer) (e : exception) :
  imp seaborn = Some e →
  (∀ m, m ≠ seaborn → imp m = None) →
  ∃ st, load_module imp = (Ok tt, st) ∧
    ("sns" ∉ globals st) ∧
    trace st = [Constructed ImportError "seaborn not found, plotting not available"] ∧
    (∀ msg, Warned msg ∉ trace st) ∧
    ∀ df n sort_criterium show_std,
      barplot_top_n_functions (globals st) df n sort_criterium show_std
      = (column_of_name sort_criterium ≫= λ _, Raise NameError).
Proof.
  intros Hsns Hother.
  exists {| globals := ["pstats"; "cProfile"; "plt"; "pd"; "np"];
            trace := [Constructed ImportError "seaborn not found, plotting not available"] |}.
  split; [| split; [| split; [| split]]].
  - unfold load_module, module_body, exec_seq, try_except, import_as, construct.
    rewrite Hsns, !Hother by discriminate. reflexivity.
  - simpl. by_eval.
  - reflexivity.
  - intros msg. simpl. rewrite list_elem_of_singleton. discriminate.
  - intros df n sort_criterium show_std. unfold barplot_top_n_functions.
    destruct (column_of_name sort_criterium) as [c|e']; reflexivity.
Qed.

Lemma seaborn_import_failure_witness :
  ∃ st, load_module import_no_seaborn = (Ok tt, st) ∧
    ("sns" ∉ globals st) ∧
    trace st = [Constructed ImportError "seaborn not found, plotting not available"] ∧
    (∀ msg, Warned msg ∉ trace st) ∧
    ∀ df n sort_criterium show_std,
      barplot_top_n_functions (globals st) df n sort_criterium show_std
      = (column_of_name sort_criterium ≫= λ _, Raise NameError).
Proof.
  apply (seaborn_import_failure import_no_seaborn ImportError).
  - reflexivity.
  - intros m Hm. unfold import_no_seaborn. destruct (decide (m = seaborn)); [done | reflexivity].
Defined.

(** ** [aggregate_profiling_df] on objects *)

Lemma alloc_fresh (o : PyObject) (h : Heap) :
  h !! (alloc o h).1 = None.
Proof. simpl. apply not_elem_of_dom, is_fresh. Qed.

(** C7. The aggregator does not mutate its input: after the call every
    object of the heap, the table passed in among them, is what it was
    before, and the result is an object that did not exist before. *)
Theorem aggregate_preserves_input (h : Heap) (df : loc) (rows : DataFrame) :
  h !! df = Some (ObjDataFrame rows) →
  ∃ df' h',
    aggregate_profiling_df_obj df h = (Ok df', h') ∧
    h !! df' = None ∧
    h' !! df' = Some (ObjAggFrame (aggregate_profiling_df rows)) ∧
    h' !! df = Some (ObjDataFrame rows) ∧
    ∀ l o, h !! l = Some o → h' !! l = Some o.
Proof.
  intros Hdf. unfold aggregate_profiling_df_obj. rewrite Hdf.
  set (o1 := ObjGrouped (groupby_agg rows)).
  pose proof (alloc_fresh o1 h) as Hl1.
  destruct (alloc o1 h) as [df1 h1] eqn:Ha1. simpl in Hl1.
  assert (Hh1 : h1 = <[df1 := o1]> h) by (unfold alloc in Ha1; congruence).
  assert (Hget1 : h1 !! df1 = Some o1) by (rewrite Hh1; apply lookup_insert_eq).
  rewrite Hget1. unfold o1 at 1.
  set (o2 := ObjAggFrame (reset_index (groupby_agg rows))).
  pose proof (alloc_fresh o2 h1) as Hl2.
  destruct (alloc o2 h1) as [df2 h2] eqn:Ha2. simpl in Hl2.
  assert (Hh2 : h2 = <[df2 := o2]> h1) by (unfold alloc in Ha2; congruence).
  assert (Hkeep : ∀ l o, h !! l = Some o → h2 !! l = Some o).
  { intros l o Hl. rewrite Hh2, Hh1.
    rewrite !lookup_insert_ne; [done | congruence |].
    intros ->. rewrite Hh1, lookup_insert_ne in Hl2 by congruence. congruence. }
  exists df2, h2. split; [done |]. split; [| split; [| split; [| done]]].
  - rewrite Hh1 in Hl2. destruct (decide (df1 = df2)) as [-> | Hne].
    + rewrite lookup_insert_eq in Hl2. discriminate.
    + by rewrite lookup_insert_ne in Hl2.
  - rewrite Hh2. apply lookup_insert_eq.
  - by apply Hkeep.
Qed.

Lemma aggregate_preserves_input_witness :
  ∃ df' h',
    aggregate_profiling_df_obj 1%positive {[ 1%positive := ObjDataFrame (rows_of dump_ABC) ]}
      = (Ok df', h') ∧
    ({[ 1%positive := ObjDataFrame (rows_of dump_ABC) ]} : Heap) !! df' = None ∧
    h' !! df' = Some (ObjAggFrame (aggregate_profiling_df (rows_of dump_ABC))) ∧
    h' !! 1%positive = Some (ObjDataFrame (rows_of dump_ABC)) ∧
    ∀ l o, ({[ 1%positive := ObjDataFrame (rows_of dump_ABC) ]} : Heap) !! l = Some o →
           h' !! l = Some o.
Proof.
  apply (aggregate_preserves_input
           {[ 1%positive := ObjDataFrame (rows_of dump_ABC) ]} 1%positive
           (rows_of dump_ABC)).
  apply lookup_singleton_eq.
Defined.

(** ** Sums *)

Lemma foldl_Qcplus (a : Qc) (xs : list Qc) :
  foldl Qcplus a xs = a + foldr Qcplus 0 xs.
Proof.
  revert a. induction xs as [|x xs IH]; intros a; simpl.
  - by rewrite Qcplus_0_r.
  - rewrite IH. ring.
Qed.

Lemma np_sum_nil : np_sum [] = 0.
Proof. reflexivity. Qed.

Lemma np_sum_cons (x : Qc) (xs : list Qc) : np_sum (x :: xs) = x + np_sum xs.
Proof. unfold np_sum. simpl. rewrite !foldl_Qcplus. ring. Qed.

Lemma np_sum_app (xs ys : list Qc) : np_sum (xs ++ ys) = np_sum xs + np_sum ys.
Proof.
  induction xs as [|x xs IH]; simpl.
  - rewrite np_sum_nil. ring.
  - rewrite !np_sum_cons, IH. ring.
Qed.

Lemma np_sum_perm (xs ys : list Qc) : xs ≡ₚ ys → np_sum xs = np_sum ys.
Proof.
  induction 1 as [| x xs ys _ IH | x y xs | xs ys zs _ IH1 _ IH2].
  - reflexivity.
  - by rewrite !np_sum_cons, IH.
  - rewrite !np_sum_cons. ring.
  - by rewrite IH1.
Qed.

Lemma np_mean_perm (xs ys : list Qc) : xs ≡ₚ ys → np_mean xs = np_mean ys.
Proof.
  intros Hp. unfold np_mean.
  by rewrite (np_sum_perm _ _ Hp), (Permutation_length Hp).
Qed.

Lemma np_std_perm (xs ys : list Qc) : xs ≡ₚ ys → np_std xs = np_std ys.
Proof.
  intros Hp. unfold np_std.
  rewrite (Permutation_length Hp), (np_mean_perm _ _ Hp).
  destruct (decide (length ys < 2)%nat); [done |].
  f_equal. f_equal. apply np_sum_perm. by apply fmap_Permutation.
Qed.

(** ** [aggregate_profiling_df] *)

Lemma agg_column_perm (g g' : list Row) (c : Column) :
  g ≡ₚ g' → agg_column g c = agg_column g' c.
Proof.
  intros Hp. unfold agg_column.
  assert (Hv : col_value c <$> g ≡ₚ col_value c <$> g') by by apply fmap_Permutation.
  by rewrite (np_mean_perm _ _ Hv), (np_std_perm _ _ Hv), (Permutation_length Hv).
Qed.

Lemma agg_group_perm (g g' : list Row) : g ≡ₚ g' → agg_group g = agg_group g'.
Proof.
  intros Hp. unfold agg_group.
  by rewrite !(agg_column_perm g g' _ Hp).
Qed.

Lemma agg_get_agg_group (c : Column) (g : list Row) :
  agg_get c (agg_group g) = agg_column g c.
Proof. by destruct c. Qed.

Lemma group_perm (df df' : DataFrame) (k : string) :
  df ≡ₚ df' → group df k ≡ₚ group df' k.
Proof. intros Hp. unfold group. by apply filter_Permutation. Qed.

Lemma elem_of_group_keys (df : DataFrame) (k : string) :
  k ∈ group_keys df ↔ k ∈ flf <$> df.
Proof.
  unfold group_keys. rewrite merge_sort_Permutation. apply elem_of_remove_dups.
Qed.

Lemma NoDup_group_keys (df : DataFrame) : NoDup (group_keys df).
Proof.
  unfold group_keys. rewrite merge_sort_Permutation. apply NoDup_remove_dups.
Qed.

Lemma Sorted_group_keys (df : DataFrame) : Sorted String.le (group_keys df).
Proof. unfold group_keys. apply Sorted_merge_sort, _. Qed.

(** The group keys do not depend on the order of the rows. *)
Lemma group_keys_perm (df df' : DataFrame) :
  df ≡ₚ df' → group_keys df = group_keys df'.
Proof.
  intros Hp.
  apply (Sorted_unique String.le); try apply Sorted_group_keys.
  apply NoDup_Permutation; try apply NoDup_group_keys.
  intros k. rewrite !elem_of_group_keys. by rewrite Hp.
Qed.

Lemma groupby_agg_perm (df df' : DataFrame) :
  df ≡ₚ df' → groupby_agg df = groupby_agg df'.
Proof.
  intros Hp. unfold groupby_agg. rewrite (group_keys_perm _ _ Hp).
  apply list_fmap_ext. intros _ k _. f_equal.
  apply agg_group_perm. by apply group_perm.
Qed.

Lemma aggregate_profiling_df_perm (df df' : DataFrame) :
  df ≡ₚ df' → aggregate_profiling_df df = aggregate_profiling_df df'.
Proof.
  intros Hp. unfold aggregate_profiling_df. by rewrite (groupby_agg_perm _ _ Hp).
Qed.

(** A row of the aggregated table holds the statistics of its group. *)
Lemma aggregate_row (df : DataFrame) (a : AggRow) :
  a ∈ aggregate_profiling_df df →
  a_flf a ∈ flf <$> df ∧ a_cols a = agg_group (group df (a_flf a)).
Proof.
  unfold aggregate_profiling_df, reset_index, groupby_agg.
  rewrite <- list_fmap_compose. intros (k & -> & Hk)%list_elem_of_fmap.
  simpl. split; [by apply elem_of_group_keys | done].
Qed.

(** ** [barplot_top_n_functions] *)

Lemma mean_ge_total c : Total (mean_ge c).
Proof. intros a b. unfold mean_ge. destruct (total Qcle (mean_of c a) (mean_of c b)); auto. Qed.

Lemma mean_ge_trans c : Transitive (mean_ge c).
Proof. intros x y z Hxy Hyz. unfold mean_ge in *. by etrans. Qed.

Lemma df_sort_desc_perm (s_c : Column) (df : AggFrame) : df_sort_desc s_c df ≡ₚ df.
Proof. apply merge_sort_Permutation. Qed.

Lemma df_sort_desc_sorted (s_c : Column) (df : AggFrame) :
  StronglySorted (mean_ge s_c) (df_sort_desc s_c df).
Proof.
  apply StronglySorted_merge_sort; [apply mean_ge_trans | apply mean_ge_total].
Qed.

Lemma column_of_name_name (c : Column) : column_of_name (column_name c) = Ok c.
Proof. by destruct c. Qed.

Lemma iloc_0_nat {A} (n : nat) (l : list A) : iloc_0 (Z.of_nat n) l = take n l.
Proof.
  unfold iloc_0. rewrite decide_True by lia. by rewrite Nat2Z.id.
Qed.

Lemma iloc_0_take {A} (n : Z) (l : list A) : ∃ m, iloc_0 n l = take m l.
Proof. unfold iloc_0. destruct (decide (0 ≤ n)%Z); eauto. Qed.


(** C1, as the code has it.  For every aggregated table, every sort
    criterion and every [N], the renderer takes as total time the sum of the
    [tot_time] mean column over every row (whatever the sort criterion is),
    sorts the rows in descending order of the mean of the sort criterion,
    keeps the first [N], and reports the sum of the [tot_time] means of
    those rows divided by the total. *)
Theorem barplot_ranking (df : AggFrame) (N : nat) (s_c : Column)
    (show_std : bool) :
  let l := barplot_locals df (Z.of_nat N) s_c show_std in
  column_of_name (column_name s_c) = Ok s_c ∧
  total_time l = np_sum (mean_of Col_tot_time <$> df) ∧
  (∃ sorted, sorted ≡ₚ df ∧ StronglySorted (mean_ge s_c) sorted ∧
             data l = take N sorted) ∧
  topn_time l = np_sum (mean_of Col_tot_time <$> data l) ∧
  frac_time l = np_div (topn_time l) (total_time l).
Proof.
  simpl. split; [apply column_of_name_name |]. split; [done |].
  split; [| done].
  exists (df_sort_desc s_c df).
  split; [apply df_sort_desc_perm |]. split; [apply df_sort_desc_sorted |].
  apply iloc_0_nat.
Qed.

(** C1 as stated fails: ranked by [cum_time], the total is still the sum of
    the [tot_time] means (5), not of the [cum_time] means (9), and the
    fraction reported for the first row is 1/5, not 5/9. *)
Lemma barplot_ranking_counterexample :
  let df := aggregate_profiling_df (rows_of dump_nested) in
  let l := barplot_locals df 1 Col_cum_time true in
  mean_sum Col_cum_time df = Qc_of_Z 9 ∧
  total_time l = Qc_of_Z 5 ∧
  total_time l ≠ mean_sum Col_cum_time df ∧
  frac_time l = Finite (Q2Qc (1 # 5)) ∧
  frac_time l ≠ np_div (mean_sum Col_cum_time (data l)) (mean_sum Col_cum_time df) ∧
  (barplot_top_n_functions all_globals df 1 "cum_time" true
     ≫= λ fig, Ok (fig_text fig)) = Ok "20% of total runtime"%string.
Proof.
  repeat split; by_eval.
Qed.

(** *** The fraction of the total *)







(** ** The example scenario *)

Lemma consistent_perm (stats stats' : Stats) :
  stats ≡ₚ stats' → Forall consistent stats' → Forall consistent stats.
Proof. intros Hp H. by rewrite Hp. Qed.

Lemma rows_of_perm (stats stats' : Stats) :
  stats ≡ₚ stats' → rows_of stats ≡ₚ rows_of stats'.
Proof. intros Hp. unfold rows_of. by apply fmap_Permutation. Qed.

Lemma dump_ABC_consistent : Forall consistent dump_ABC.
Proof. by_eval. Qed.

Lemma dump_at_consistent (la lb lc : Z) : Forall consistent (dump_at la lb lc).
Proof. repeat constructor; unfold consistent; simpl; lia. Qed.

(** C9. For the dump with A (self 6.0, 3 calls), B (self 3.0, 1 call) and
    C (self 1.0, 1 call), wherever the three functions stand in the file
    (so whatever the order of their labels in the aggregated table is) and
    in whatever order the dict yields its entries, the top-2 selection by
    total self time is A then B, the total time is 10, the fraction is 0.9
    and the annotation reads "90% of total runtime". *)
Theorem example_ABC (la lb lc : Z) (stats : Stats) :
  (la, lb, lc) ∈ placements →
  stats ≡ₚ dump_at la lb lc →
  ∃ df fig,
    get_df_from_stats stats = Ok df ∧
    let agg := aggregate_profiling_df df in
    let l := barplot_locals agg 2 Col_tot_time true in
    a_flf <$> data l = [label_at la "A"; label_at lb "B"] ∧
    total_time l = Qc_of_Z 10 ∧
    frac_time l = Finite (Q2Qc (9 # 10)) ∧
    barplot_top_n_functions all_globals agg 2 "tot_time" true = Ok fig ∧
    fig_bars fig = [(label_at la "A", Qc_of_Z 6); (label_at lb "B", Qc_of_Z 3)] ∧
    fig_text fig = "90% of total runtime"%string.
Proof.
  intros Hin Hp.
  exists (rows_of stats).
  exists {| fig_bars := [(label_at la "A", Qc_of_Z 6);
                         (label_at lb "B", Qc_of_Z 3)];
            fig_xerr := Some [StdNaN; StdNaN];
            fig_xlabel := "tot_time [s]"; fig_ylabel := EmptyString;
            fig_text := "90% of total runtime" |}.
  split.
  - apply get_df_from_stats_consistent.
    eapply consistent_perm; [exact Hp | apply dump_at_consistent].
  - rewrite (aggregate_profiling_df_perm _ _ (rows_of_perm _ _ Hp)).
    unfold placements in Hin.
    repeat (apply elem_of_cons in Hin as [Hin | Hin];
            [injection Hin as -> -> ->; repeat split; by_eval |]).
    by apply elem_of_nil in Hin.
Qed.

Lemma example_ABC_witness :
  ∃ df fig,
    get_df_from_stats (reverse (dump_at 9 5 1)) = Ok df ∧
    let agg := aggregate_profiling_df df in
    let l := barplot_locals agg 2 Col_tot_time true in
    a_flf <$> data l = [label_at 9 "A"; label_at 5 "B"] ∧
    total_time l = Qc_of_Z 10 ∧
    frac_time l = Finite (Q2Qc (9 # 10)) ∧
    barplot_top_n_functions all_globals agg 2 "tot_time" true = Ok fig ∧
    fig_bars fig = [(label_at 9 "A", Qc_of_Z 6); (label_at 5 "B", Qc_of_Z 3)] ∧
    fig_text fig = "90% of total runtime"%string.
Proof.
  apply (example_ABC 9 5 1 (reverse (dump_at 9 5 1))).
  - by_eval.
  - apply reverse_Permutation.
Defined.

(** The same scenario on doubles: for each placement of A, B and C and each
    order of the entries, the loader, the aggregator and the renderer give
    the bars A (6.0) then B (3.0), the total 10.0, the fraction 0.9 and
    the text "90% of total runtime"; no rounding enters but that of 9/10,
    and [100 * 0.9] is the double 90.0. *)
Example example_ABC_binary64 :
  Forall (λ p : Z * Z * Z,
      Forall (λ stats,
          (df ← Binary64.get_df_from_stats stats;
           let agg := Binary64.aggregate_profiling_df df in
           let l := Binary64.barplot_locals agg 2 Col_tot_time true in
           fig ← Binary64.barplot_top_n_functions all_globals agg 2
                   "tot_time" true;
           Ok (Binary64.total_time l, Binary64.frac_time l,
               Binary64.fig_bars fig, Binary64.fig_text fig))
          = Ok (10%float, 0.9%float,
                [(label_at p.1.1 "A", 6%float); (label_at p.1.2 "B", 3%float)],
                "90% of total runtime"%string))
        (permutations (dump_at64 p.1.1 p.1.2 p.2)))
    placements.
Proof. repeat constructor; vm_compute; reflexivity. Qed.

(** The other scenario of the specification: three repetitions that each
    report the single function F with a self time of 2 s aggregate to one
    row with mean 2, standard deviation 0 and count 3. *)
Example example_three_runs :
  let dump_F : Stats :=
    [ (("script.py"%string, 1%Z, "F"%string),
       {| v0 := 1; v1 := 1; v2 := Qc_of_Z 2; v3 := Qc_of_Z 2; v4 := [] |}) ] in
  (run 3 (λ _, Ok dump_F) ≫= λ r, Ok (ag_tot_time <$> (a_cols <$> aggregate_profiling_df r.1)))
  = Ok [ {| agg_mean := Qc_of_Z 2; agg_std := StdSqrt 0; agg_count := 3 |} ].
Proof. by_eval. Qed.

(** * Further properties *)

(** ** Numbers *)

Lemma Qc_of_Z_nonzero (z : Z) : z ≠ 0%Z → Qc_of_Z z ≠ 0.
Proof.
  intros Hz Heq. apply (f_equal this) in Heq. simpl in Heq.
  apply (f_equal Qnum) in Heq. simpl in Heq. done.
Qed.

Lemma Qc_of_nat_nonzero (n : nat) : n ≠ 0%nat → Qc_of_nat n ≠ 0.
Proof. intros Hn. apply Qc_of_Z_nonzero. lia. Qed.

(** ** The loader *)

(** X1. Every row of a table the loader returns keeps the invariants of a
    profile sample: primitive calls do not exceed calls, both per-call
    times are 0 when the primitive call count is 0, and the label is built
    from the file, the line and the function of the same row. *)
Theorem loader_row_invariants (stats : Stats) (df : DataFrame) :
  get_df_from_stats stats = Ok df →
  Forall (λ r,
      (pcalls r ≤ ncalls r)%N ∧
      (pcalls r = 0%N → tot_time_per r = 0 ∧ cum_time_per r = 0) ∧
      flf r = file r +:+ ":" +:+ pretty (line r) +:+ newline
              +:+ function r +:+ "()")
    df.
Proof.
  intros Hok. apply get_df_from_stats_Ok_inv in Hok as [Hall ->].
  unfold rows_of. apply Forall_fmap.
  eapply Forall_impl; [| exact Hall].
  intros [k v] Hc. unfold consistent in Hc. simpl in *.
  split; [exact Hc |]. split; [| reflexivity].
  intros Hzero. by rewrite bool_decide_eq_false_2 by lia.
Qed.

Lemma loader_row_invariants_witness :
  Forall (λ r,
      (pcalls r ≤ ncalls r)%N ∧
      (pcalls r = 0%N → tot_time_per r = 0 ∧ cum_time_per r = 0) ∧
      flf r = file r +:+ ":" +:+ pretty (line r) +:+ newline
              +:+ function r +:+ "()")
    (rows_of dump_ABC).
Proof.
  apply (loader_row_invariants dump_ABC). reflexivity.
Defined.

Lemma make_row_inj k v k' v' :
  make_row k v = make_row k' v' → same_entry (k, v) (k', v').
Proof.
  intros Heq.
  pose proof (f_equal file Heq) as Hfile.
  pose proof (f_equal line Heq) as Hline.
  pose proof (f_equal function Heq) as Hfun.
  pose proof (f_equal ncalls Heq) as Hn.
  pose proof (f_equal pcalls Heq) as Hp.
  pose proof (f_equal tot_time Heq) as Ht.
  pose proof (f_equal cum_time Heq) as Hc.
  destruct k as [[fl ln] fn], k' as [[fl' ln'] fn'].
  unfold same_entry. simpl in *. by subst.
Qed.

(** A row depends on its entry through the key and the four components
    the loader reads only. *)
Lemma make_row_same_entry k v k' v' :
  same_entry (k, v) (k', v') → make_row k v = make_row k' v'.
Proof.
  unfold same_entry. simpl. intros (-> & H0 & H1 & H2 & H3).
  unfold make_row. by rewrite H0, H1, H2, H3.
Qed.

Lemma rows_of_inj (s1 s2 : Stats) :
  rows_of s1 = rows_of s2 → Forall2 same_entry s1 s2.
Proof.
  revert s2. induction s1 as [|[k v] s1 IH]; intros [|[k' v'] s2] Heq;
    try discriminate; [constructor |].
  change (make_row k v :: rows_of s1 = make_row k' v' :: rows_of s2) in Heq.
  assert (Hrow : make_row k v = make_row k' v') by congruence.
  assert (Hrest : rows_of s1 = rows_of s2) by congruence.
  constructor; [by apply make_row_inj | by apply IH].
Qed.

Lemma rows_of_same_entry (s1 s2 : Stats) :
  Forall2 same_entry s1 s2 →
  rows_of s1 = rows_of s2 ∧ (Forall consistent s1 → Forall consistent s2).
Proof.
  induction 1 as [|[k v] [k' v'] s1 s2 He _ [IHrows IHcons]].
  - split; [done | by constructor].
  - split.
    + change (make_row k v :: rows_of s1 = make_row k' v' :: rows_of s2).
      f_equal; [by apply make_row_same_entry | done].
    + intros [Hkv Hs1]%list.Forall_cons.
      apply list.Forall_cons. split; [| by apply IHcons].
      unfold same_entry, consistent in *. simpl in *.
      destruct He as (_ & <- & <- & _). done.
Qed.

(** X2. What the table keeps of a dump: a second dump is converted to the
    same table exactly when it has, entry for entry, the same key, the
    same call counters and the same times; the callers, which the loader
    does not read, are the one part of a dump the table does not
    determine. *)
Theorem loader_injective (s1 s2 : Stats) (df : DataFrame) :
  get_df_from_stats s1 = Ok df →
  (get_df_from_stats s2 = Ok df ↔ Forall2 same_entry s1 s2).
Proof.
  intros [Hc1 ->]%get_df_from_stats_Ok_inv. split.
  - intros [_ Heq]%get_df_from_stats_Ok_inv. by apply rows_of_inj.
  - intros [Hrows Hcons]%rows_of_same_entry.
    rewrite Hrows. apply get_df_from_stats_consistent. by apply Hcons.
Qed.

Lemma loader_injective_witness :
  get_df_from_stats dump_ABC_callers = Ok (rows_of dump_ABC)
  ↔ Forall2 same_entry dump_ABC dump_ABC_callers.
Proof.
  apply (loader_injective dump_ABC dump_ABC_callers (rows_of dump_ABC)).
  reflexivity.
Defined.

Lemma get_df_from_stats_cases (stats : Stats) :
  Forall consistent stats ∧ get_df_from_stats stats = Ok (rows_of stats)
  ∨ Exists (λ kv, ¬ consistent kv) stats
    ∧ get_df_from_stats stats = Raise AssertionError.
Proof.
  destruct (decide (Forall consistent stats)) as [Hall | Hnot].
  - left. split; [done | by apply get_df_from_stats_consistent].
  - right. apply not_Forall_Exists in Hnot; [| apply _].
    split; [done | by apply get_df_loop_inconsistent].
Qed.

(** X3. Loading distributes over the concatenation of dumps: the table of
    [s1 ++ s2] is the [pd.concat] of the tables of [s1] and of [s2], and
    loading [s1 ++ s2] raises when loading either part does. *)
Theorem loader_concat (s1 s2 : Stats) :
  get_df_from_stats (s1 ++ s2)
  = (d1 ← get_df_from_stats s1;
     d2 ← get_df_from_stats s2;
     Ok (pd_concat [d1; d2])).
Proof.
  destruct (get_df_from_stats_cases s1) as [[H1 ->] | [H1 ->]];
    destruct (get_df_from_stats_cases s2) as [[H2 ->] | [H2 ->]]; simpl.
  - rewrite get_df_from_stats_consistent by by apply Forall_app.
    unfold pd_concat, rows_of. simpl. by rewrite app_nil_r, fmap_app.
  - apply get_df_loop_inconsistent, Exists_app. by right.
  - apply get_df_loop_inconsistent, Exists_app. by left.
  - apply get_df_loop_inconsistent, Exists_app. by left.
Qed.

(** ** The aggregator *)

Lemma group_cons (r : Row) (df : DataFrame) (k : string) :
  group (r :: df) k = if decide (flf r = k) then r :: group df k else group df k.
Proof. unfold group, DataFrame. by rewrite filter_cons. Qed.

Lemma group_app (df1 df2 : DataFrame) (k : string) :
  group (df1 ++ df2) k = group df1 k ++ group df2 k.
Proof. unfold group, DataFrame. by rewrite list.filter_app. Qed.

(** The rows of another group are not in the way. *)
Lemma group_filter_ne (df : DataFrame) (k k' : string) :
  k ≠ k' → group (filter (λ r, flf r ≠ k) df) k' = group df k'.
Proof.
  intros Hne. unfold DataFrame in *. induction df as [|r df IH]; [done |].
  rewrite filter_cons. destruct (decide (flf r ≠ k)) as [Hr | Hr].
  - rewrite !group_cons, IH. done.
  - rewrite group_cons, IH. rewrite decide_False; [done |].
    intros Heq. apply Hr. congruence.
Qed.

(** The groups of a table, taken together, are the rows of the table. *)
Lemma groups_partition (ks : list string) : ∀ df : DataFrame,
  NoDup ks → (∀ r, r ∈ df → flf r ∈ ks) →
  concat (group df <$> ks) ≡ₚ df.
Proof.
  unfold DataFrame. induction ks as [|k ks IH]; intros df Hnd Hin.
  - destruct df as [|r df]; [done |].
    specialize (Hin r ltac:(left)). by apply elem_of_nil in Hin.
  - apply list.NoDup_cons in Hnd as [Hk Hnd]. simpl.
    rewrite <- (filter_app_complement (λ r, flf r = k) df) at 3.
    fold (group df k). apply Permutation_app_head.
    assert (Heq : group df <$> ks
                  = group (filter (λ r, flf r ≠ k) df) <$> ks).
    { apply list_fmap_ext. intros i k' Hk'.
      symmetry. apply group_filter_ne. intros ->.
      apply Hk. by eapply list_elem_of_lookup_2. }
    change (list_fmap string (list Row) (group df) ks) with (group df <$> ks).
    rewrite Heq. apply IH; [exact Hnd |].
    intros r [Hr Hrin]%list_elem_of_filter.
    specialize (Hin r Hrin). apply elem_of_cons in Hin as [Heq' | Hin]; done.
Qed.

Lemma aggregate_groups_partition (df : DataFrame) :
  concat (group df <$> group_keys df) ≡ₚ df.
Proof.
  apply groups_partition; [apply NoDup_group_keys |].
  intros r Hr. apply elem_of_group_keys, list_elem_of_fmap. eauto.
Qed.

Lemma aggregate_unfold (df : DataFrame) :
  aggregate_profiling_df df
  = (λ k, {| a_flf := k; a_cols := agg_group (group df k) |}) <$> group_keys df.
Proof.
  unfold aggregate_profiling_df, reset_index, groupby_agg.
  by rewrite <- list_fmap_compose.
Qed.

Lemma sum_list_length_concat {A} (ls : list (list A)) :
  sum_list (length <$> ls) = length (concat ls).
Proof.
  induction ls as [|l ls IH]; [done |].
  simpl. rewrite length_app. by f_equal.
Qed.

Lemma np_sum_concat (ls : list (list Qc)) :
  np_sum (np_sum <$> ls) = np_sum (concat ls).
Proof.
  induction ls as [|l ls IH]; [done |].
  change (np_sum (np_sum l :: (np_sum <$> ls)) = np_sum (l ++ concat ls)).
  by rewrite np_sum_cons, np_sum_app, IH.
Qed.

Lemma fmap_concat {A B} (f : A → B) (ls : list (list A)) :
  f <$> concat ls = concat ((λ l : list A, f <$> l) <$> ls).
Proof.
  induction ls as [|l ls IH]; [done |].
  change (f <$> l ++ concat ls
          = (f <$> l) ++ concat ((λ l : list A, f <$> l) <$> ls)).
  by rewrite fmap_app, IH.
Qed.

Lemma Qc_of_nat_0 : Qc_of_nat 0 = 0.
Proof. apply Qc_is_canon. reflexivity. Qed.

Lemma Qc_of_nat_1 : Qc_of_nat 1 = 1.
Proof. apply Qc_is_canon. reflexivity. Qed.

(** The mean of a group times its size gives back the sum of the group. *)
Lemma np_mean_times_length (xs : list Qc) :
  np_mean xs * Qc_of_nat (length xs) = np_sum xs.
Proof.
  destruct xs as [|x xs].
  - simpl. rewrite Qc_of_nat_0, np_sum_nil. ring.
  - unfold np_mean. field. by apply Qc_of_nat_nonzero.
Qed.

(** X4. Aggregation accounts for every row once: in each numeric column the
    counts of the aggregated rows add up to the number of rows of the
    input. *)
Theorem aggregate_counts_total (df : DataFrame) (c : Column) :
  sum_list ((λ a, agg_count (agg_get c (a_cols a))) <$> aggregate_profiling_df df)
  = length df.
Proof.
  rewrite aggregate_unfold, <- list_fmap_compose.
  rewrite <- (Permutation_length (aggregate_groups_partition df)).
  rewrite <- sum_list_length_concat, <- list_fmap_compose.
  f_equal. apply list_fmap_ext. intros _ k _. simpl.
  rewrite agg_get_agg_group. simpl. by rewrite length_fmap.
Qed.

(** X5. Aggregation keeps the totals: in each numeric column, the means of
    the aggregated rows weighted by their counts add up to the sum of the
    column over the rows of the input. *)
Theorem aggregate_weighted_means (df : DataFrame) (c : Column) :
  np_sum ((λ a, agg_mean (agg_get c (a_cols a))
                * Qc_of_nat (agg_count (agg_get c (a_cols a))))
          <$> aggregate_profiling_df df)
  = np_sum (col_value c <$> df).
Proof.
  rewrite aggregate_unfold, <- list_fmap_compose.
  rewrite <- (np_sum_perm _ _
    (fmap_Permutation (col_value c) _ _ (aggregate_groups_partition df))).
  rewrite fmap_concat, <- np_sum_concat, <- !list_fmap_compose.
  f_equal. apply list_fmap_ext. intros _ k _. simpl.
  rewrite agg_get_agg_group. simpl. apply np_mean_times_length.
Qed.

Lemma group_nil (df : DataFrame) (k : string) :
  k ∉ flf <$> df → group df k = [].
Proof.
  induction df as [|r df IH]; intros Hk; [done |].
  rewrite fmap_cons, not_elem_of_cons in Hk. destruct Hk as [Hne Hk].
  rewrite group_cons, decide_False by done. by apply IH.
Qed.

(** With distinct labels, the group of a row is that row alone. *)
Lemma group_singleton (df : DataFrame) (r : Row) :
  NoDup (flf <$> df) → r ∈ df → group df (flf r) = [r].
Proof.
  induction df as [|x df IH]; intros Hnd Hr; [by apply elem_of_nil in Hr |].
  rewrite fmap_cons in Hnd. apply list.NoDup_cons in Hnd as [Hx Hnd].
  rewrite group_cons. apply elem_of_cons in Hr as [-> | Hr].
  - rewrite decide_True by done. f_equal. by apply group_nil.
  - rewrite decide_False; [by apply IH |].
    intros Heq. apply Hx. rewrite Heq. apply list_elem_of_fmap. eauto.
Qed.

Lemma group_length_NoDup (df : DataFrame) (k : string) :
  NoDup (flf <$> df) →
  length (group df k) = if decide (k ∈ flf <$> df) then 1%nat else 0%nat.
Proof.
  intros Hnd. destruct (decide (k ∈ flf <$> df)) as [Hin | Hnin].
  - apply list_elem_of_fmap in Hin as (r & -> & Hr).
    by rewrite group_singleton.
  - by rewrite group_nil.
Qed.

Lemma np_mean_singleton (x : Qc) : np_mean [x] = x.
Proof.
  unfold np_mean. rewrite np_sum_cons, np_sum_nil. simpl.
  rewrite Qc_of_nat_1. field. discriminate.
Qed.

(** X6. In a table whose labels are all distinct (a single run), every
    aggregated row stands for one row of the input: its mean is the value
    of that row, its count is 1 and its standard deviation is [nan]. *)
Theorem aggregate_single_run (df : DataFrame) (a : AggRow) (c : Column) :
  NoDup (flf <$> df) →
  a ∈ aggregate_profiling_df df →
  ∃ r, r ∈ df ∧ flf r = a_flf a ∧
    agg_get c (a_cols a)
    = {| agg_mean := col_value c r; agg_std := StdNaN; agg_count := 1 |}.
Proof.
  intros Hnd Ha. apply aggregate_row in Ha as [Hin ->].
  apply list_elem_of_fmap in Hin as (r & Hk & Hr).
  exists r. split; [done |]. split; [done |].
  rewrite agg_get_agg_group, Hk, group_singleton by done.
  unfold agg_column. simpl. by rewrite np_mean_singleton.
Qed.

Lemma aggregate_single_run_witness :
  ∃ r, r ∈ rows_of dump_ABC ∧ flf r = label_A ∧
    agg_get Col_tot_time (agg_group (group (rows_of dump_ABC) label_A))
    = {| agg_mean := col_value Col_tot_time r; agg_std := StdNaN;
         agg_count := 1 |}.
Proof.
  apply (aggregate_single_run (rows_of dump_ABC)
           {| a_flf := label_A;
              a_cols := agg_group (group (rows_of dump_ABC) label_A) |}
           Col_tot_time).
  - by_eval.
  - by_eval.
Defined.

Lemma group_concat_length (frames : list DataFrame) (k : string) :
  Forall (λ fr, NoDup (flf <$> fr)) frames →
  length (group (concat frames) k)
  = length (filter (λ fr : DataFrame, k ∈ flf <$> fr) frames).
Proof.
  induction 1 as [|fr frames Hfr _ IH]; [done |].
  change (concat (fr :: frames)) with (fr ++ concat frames).
  rewrite group_app, length_app, IH, filter_cons, group_length_NoDup by done.
  by destruct (decide (k ∈ flf <$> fr)).
Qed.

(** X7. When the tables of several runs, each with distinct labels, are
    concatenated and aggregated, the count of a function is the number of
    runs in which it appeared. *)
Theorem aggregate_count_runs (frames : list DataFrame) (a : AggRow)
    (c : Column) :
  Forall (λ fr, NoDup (flf <$> fr)) frames →
  a ∈ aggregate_profiling_df (pd_concat frames) →
  agg_count (agg_get c (a_cols a))
  = length (filter (λ fr : DataFrame, a_flf a ∈ flf <$> fr) frames).
Proof.
  intros Hnd Ha. apply aggregate_row in Ha as [_ ->].
  rewrite agg_get_agg_group. simpl. rewrite length_fmap.
  by apply group_concat_length.
Qed.

Lemma aggregate_count_runs_witness :
  agg_count (agg_get Col_tot_time
    (agg_group (group (pd_concat [rows_of dump_ABC; rows_of dump_idle;
                                  rows_of dump_ABC]) label_A)))
  = length (filter (λ fr : DataFrame, label_A ∈ flf <$> fr)
              [rows_of dump_ABC; rows_of dump_idle; rows_of dump_ABC]).
Proof.
  apply (aggregate_count_runs
           [rows_of dump_ABC; rows_of dump_idle; rows_of dump_ABC]
           {| a_flf := label_A;
              a_cols := agg_group (group (pd_concat
                [rows_of dump_ABC; rows_of dump_idle; rows_of dump_ABC])
                label_A) |}
           Col_tot_time).
  - repeat constructor; by_eval.
  - by_eval.
Defined.

(** ** Repeated runs *)

Lemma group_concat_replicate (n : nat) (rows : DataFrame) (k : string) :
  group (concat (replicate n rows)) k = concat (replicate n (group rows k)).
Proof.
  induction n as [|n IH]; [done |].
  change (group (rows ++ concat (replicate n rows)) k
          = group rows k ++ concat (replicate n (group rows k))).
  by rewrite group_app, IH.
Qed.

Lemma concat_replicate_singleton {A} (n : nat) (x : A) :
  concat (replicate n [x]) = replicate n x.
Proof. induction n as [|n IH]; [done |]. simpl. by f_equal. Qed.

(** A state of the loop of [run] in which the next repetition can run:
    either no repetition has run yet, or the table is bound. *)
Lemma run_body_Ok function_name st rep s :
  first_run st = true ∨ is_Some (df st) →
  function_name rep = Ok s → Forall consistent s →
  ∃ d, run_body function_name st rep
       = Ok {| first_run := false; df := Some d; pr := Some s |}.
Proof.
  intros Hst Hf Hs. unfold run_body. rewrite Hf. simpl.
  rewrite get_df_from_stats_consistent by done. simpl.
  destruct (first_run st) eqn:Hfirst; [eauto |].
  destruct Hst as [? | [d Hd]]; [done |]. rewrite Hd. simpl. eauto.
Qed.

(** A repetition whose call raises, or whose profile the loader rejects,
    makes the body of the loop raise the same exception. *)
Lemma run_body_Raise function_name st rep e :
  (function_name rep ≫= get_df_from_stats) = Raise e →
  run_body function_name st rep = Raise e.
Proof.
  intros He. unfold run_body.
  destruct (function_name rep) as [s|e']; simpl in *; [| by injection He as ->].
  rewrite He. by destruct (first_run st).
Qed.

Lemma for_loop_app {S} (body : S → nat → result S) (l1 l2 : list nat) (st : S) :
  for_loop body (l1 ++ l2) st = (for_loop body l1 st ≫= for_loop body l2).
Proof.
  revert st. induction l1 as [|x l1 IH]; intros st; simpl; [done |].
  destruct (body st x) as [st'|e]; simpl; [apply IH | done].
Qed.

(** The repetitions before the first failing one leave a state in which
    the next repetition can run. *)
Lemma for_loop_run_body_Ok function_name (reps : list nat) : ∀ st,
  first_run st = true ∨ is_Some (df st) →
  (∀ j, j ∈ reps → ∃ s, function_name j = Ok s ∧ Forall consistent s) →
  ∃ st', for_loop (run_body function_name) reps st = Ok st'.
Proof.
  induction reps as [|j reps IH]; intros st Hst Hreps; simpl; [eauto |].
  destruct (Hreps j ltac:(left)) as (s & Hf & Hs).
  destruct (run_body_Ok _ st j s Hst Hf Hs) as [d ->]. simpl.
  apply IH; [right; simpl; eauto |].
  intros j' Hj'. apply Hreps. by right.
Qed.

(** X8. Non-positive repetition counts: for every [n_reps <= 0] the loop
    does not run and [run] raises [UnboundLocalError]; the callable is not
    called. *)
Theorem run_nonpositive_reps (n_reps : Z) (function_name : ProfiledCall) :
  (n_reps ≤ 0)%Z → run n_reps function_name = Raise UnboundLocalError.
Proof.
  intros Hn. unfold run, xrange. by rewrite Z2Nat.nonpos.
Qed.

Lemma run_nonpositive_reps_witness :
  run (-3) (λ _, Ok dump_ABC) = Raise UnboundLocalError.
Proof. apply (run_nonpositive_reps (-3)). lia. Defined.

(** X9. Failure of a repetition: if the repetitions before [i] go through
    and repetition [i < n_reps] fails, because the callable raises or
    because the loader rejects its profile, then [run] raises that
    exception and returns no partial table. *)
Theorem run_propagates (n_reps : Z) (function_name : ProfiledCall) (i : nat)
    (e : exception) :
  (Z.of_nat i < n_reps)%Z →
  (∀ j, (j < i)%nat → ∃ s, function_name j = Ok s ∧ Forall consistent s) →
  (function_name i ≫= get_df_from_stats) = Raise e →
  run n_reps function_name = Raise e.
Proof.
  intros Hi Hbefore He. unfold run, xrange.
  replace (Z.to_nat n_reps) with (i + S (Z.to_nat n_reps - S i))%nat by lia.
  rewrite seq_app, for_loop_app. simpl.
  destruct (for_loop_run_body_Ok function_name (seq 0 i)
              {| first_run := true; df := None; pr := None |}) as [st ->].
  - by left.
  - intros j Hj. apply Hbefore. apply elem_of_seq in Hj. lia.
  - simpl. by rewrite (run_body_Raise function_name st i e He).
Qed.

Lemma run_propagates_witness :
  run 3 (λ rep, if decide (rep = 1%nat) then Ok dump_bad else Ok dump_ABC)
  = Raise AssertionError.
Proof.
  apply (run_propagates 3 _ 1 AssertionError).
  - lia.
  - intros j Hj. exists dump_ABC. split.
    + by rewrite decide_False by lia.
    + apply dump_ABC_consistent.
  - reflexivity.
Defined.

Lemma last_replicate_from_option {A} (n : nat) (x : A) :
  from_option Some (Some x) (list.last (replicate n x)) = Some x.
Proof.
  induction n as [|n IH]; [done |].
  simpl replicate. by rewrite last_cons_Some, IH.
Qed.

(** A callable that yields the same profile on every repetition. *)
Lemma run_constant (n_reps : Z) (s : Stats) :
  (1 ≤ n_reps)%Z → Forall consistent s →
  run n_reps (λ _, Ok s)
  = Ok (concat (replicate (Z.to_nat n_reps) (rows_of s)), s).
Proof.
  intros Hn Hs. unfold run, xrange.
  destruct (Z.to_nat n_reps) as [|n] eqn:Hnat; [lia |].
  simpl. rewrite (run_body_first _ _ s) by done. simpl.
  rewrite <- (length_replicate n s) at 1.
  rewrite for_loop_run_body.
  - simpl. rewrite last_replicate_from_option, fmap_replicate. reflexivity.
  - intros i s' [-> _]%lookup_replicate. done.
Qed.

Lemma elem_of_concat_replicate {A} (n : nat) (l : list A) (x : A) :
  x ∈ concat (replicate n l) ↔ x ∈ l ∧ n ≠ 0%nat.
Proof.
  split.
  - intros (l' & Hl' & Hx)%list_elem_of_In%in_concat.
    apply list_elem_of_In, elem_of_replicate in Hl' as [-> Hn].
    split; [by apply list_elem_of_In | done].
  - intros [Hx Hn]. apply list_elem_of_In, in_concat. exists l.
    split; [| by apply list_elem_of_In].
    apply list_elem_of_In, elem_of_replicate. done.
Qed.

(** X10. A deterministic profile: when each of [n_reps >= 1] repetitions
    yields the same profile, with distinct labels, the aggregated table of
    the run has one row per function, the rows behind it are [n_reps]
    copies of the row of a single run, and its count is [n_reps] in every
    numeric column. *)
Theorem run_deterministic_aggregate (n_reps : Z) (s : Stats) :
  (1 ≤ n_reps)%Z →
  Forall consistent s →
  NoDup (flf <$> rows_of s) →
  ∃ df, run n_reps (λ _, Ok s) = Ok (df, s) ∧
    length (aggregate_profiling_df df) = length s ∧
    ∀ a c, a ∈ aggregate_profiling_df df →
      ∃ r, r ∈ rows_of s ∧ flf r = a_flf a ∧
        group df (a_flf a) = replicate (Z.to_nat n_reps) r ∧
        agg_count (agg_get c (a_cols a)) = Z.to_nat n_reps.
Proof.
  intros Hn Hs Hnd. eexists. split; [apply run_constant; [lia | done] |].
  split.
  - rewrite aggregate_unfold, length_fmap. unfold group_keys.
    rewrite (Permutation_length (merge_sort_Permutation _ _)).
    trans (length (flf <$> rows_of s));
      [| unfold rows_of; by rewrite !length_fmap].
    apply Permutation_length, NoDup_Permutation;
      [apply NoDup_remove_dups | exact Hnd |].
    intros k. rewrite elem_of_remove_dups, !list_elem_of_fmap.
    split.
    + intros (r & -> & [Hr _]%elem_of_concat_replicate). eauto.
    + intros (r & -> & Hr). exists r. split; [done |].
      apply elem_of_concat_replicate. split; [done | lia].
  - intros a c Ha. apply aggregate_row in Ha as [Hin ->].
    apply list_elem_of_fmap in Hin as (r & Hk & [Hr _]%elem_of_concat_replicate).
    exists r. split; [done |]. split; [done |].
    assert (Hgroup : group (concat (replicate (Z.to_nat n_reps) (rows_of s)))
                       (flf r) = replicate (Z.to_nat n_reps) r).
    { rewrite group_concat_replicate, group_singleton by done.
      apply concat_replicate_singleton. }
    simpl. rewrite Hk, Hgroup. split; [done |].
    rewrite agg_get_agg_group. simpl.
    by rewrite length_fmap, length_replicate.
Qed.

Lemma run_deterministic_aggregate_witness :
  ∃ df, run 3 (λ _, Ok dump_ABC) = Ok (df, dump_ABC) ∧
    length (aggregate_profiling_df df) = length dump_ABC ∧
    ∀ a c, a ∈ aggregate_profiling_df df →
      ∃ r, r ∈ rows_of dump_ABC ∧ flf r = a_flf a ∧
        group df (a_flf a) = replicate (Z.to_nat 3) r ∧
        agg_count (agg_get c (a_cols a)) = Z.to_nat 3.
Proof.
  apply (run_deterministic_aggregate 3 dump_ABC).
  - lia.
  - apply dump_ABC_consistent.
  - by_eval.
Defined.

(** ** The renderer *)

Lemma column_of_name_unknown (name : string) :
  name ∉ column_name <$> numeric_columns → column_of_name name = Raise KeyError.
Proof.
  intros Hname. unfold column_of_name.
  destruct (list_find _ numeric_columns) as [[i c]|] eqn:Hfind; [| done].
  apply list_find_Some in Hfind as (Hi & Hc & _).
  exfalso. apply Hname. apply list_elem_of_fmap. exists c.
  split; [done | by eapply list_elem_of_lookup_2].
Qed.

(** X11. A sort criterion that is not the name of one of the seven numeric
    columns makes the renderer raise [KeyError], whatever the table, [N] and
    the module state are; the label and the string columns ([flf], [file],
    [function]) are such names. *)
Theorem barplot_unknown_criterion (g : Globals) (df : AggFrame) (n : Z)
    (sort_criterium : string) (show_std : bool) :
  sort_criterium ∉ column_name <$> numeric_columns →
  barplot_top_n_functions g df n sort_criterium show_std = Raise KeyError.
Proof.
  intros Hname. unfold barplot_top_n_functions.
  by rewrite column_of_name_unknown.
Qed.

Lemma barplot_unknown_criterion_witness :
  barplot_top_n_functions all_globals
    (aggregate_profiling_df (rows_of dump_ABC)) 2 "file" true
  = Raise KeyError.
Proof.
  apply (barplot_unknown_criterion all_globals _ 2 "file" true).
  by_eval.
Defined.

(** What a call of the renderer that returns has gone through. *)
Lemma barplot_Ok_inv (g : Globals) (df : AggFrame) (n : Z)
    (sort_criterium : string) (show_std : bool) (fig : Figure) :
  barplot_top_n_functions g df n sort_criterium show_std = Ok fig →
  ∃ s_c txt,
    column_of_name sort_criterium = Ok s_c ∧
    data (barplot_locals df n s_c show_std) ≠ [] ∧
    annotation (frac_time (barplot_locals df n s_c show_std)) = Ok txt ∧
    fig = {| fig_bars := (λ a, (a_flf a, mean_of s_c a))
                         <$> data (barplot_locals df n s_c show_std);
             fig_xerr := errs (barplot_locals df n s_c show_std);
             fig_xlabel := sort_criterium +:+ " [s]";
             fig_ylabel := EmptyString;
             fig_text := txt |}.
Proof.
  unfold barplot_top_n_functions. intros Hok.
  destruct (column_of_name sort_criterium) as [s_c|]; [| done].
  cbv beta iota zeta delta [mbind result_bind] in Hok.
  destruct (load_global g "plt"); [| done].
  destruct (load_global g "sns"); [| done].
  set (L := barplot_locals df n s_c show_std) in *.
  destruct (data L) as [|row0 rows0] eqn:Hdata; [done |].
  rewrite fmap_cons in Hok.
  destruct (annotation (frac_time L)) as [txt|] eqn:Htxt; [| done].
  subst L. exists s_c, txt. rewrite Hdata. split; [done |]. split; [done |].
  split; [done |]. rewrite fmap_cons. congruence.
Qed.

Lemma length_iloc_0 {A} (n : Z) (l : list A) :
  length (iloc_0 n l)
  = if decide (0 ≤ n)%Z then Nat.min (Z.to_nat n) (length l)
    else (length l - Z.to_nat (- n))%nat.
Proof.
  unfold iloc_0. destruct (decide (0 ≤ n)%Z); rewrite length_take; lia.
Qed.

(** X12. The shape of a returned figure.  It has at least one bar; for
    [N >= 0] it has [min N rows] bars, so that an [N] above the number of
    rows shows every row; for a negative [N] the last [-N] rows of the
    ranking are left out; and there is one error bar per bar when
    [show_std] is set, and none otherwise. *)
Theorem barplot_shape (g : Globals) (df : AggFrame) (n : Z)
    (sort_criterium : string) (show_std : bool) (fig : Figure) :
  barplot_top_n_functions g df n sort_criterium show_std = Ok fig →
  (1 ≤ length (fig_bars fig))%nat ∧
  length (fig_bars fig)
  = (if decide (0 ≤ n)%Z then Nat.min (Z.to_nat n) (length df)
     else (length df - Z.to_nat (- n))%nat) ∧
  (if show_std
   then ∃ e, fig_xerr fig = Some e ∧ length e = length (fig_bars fig)
   else fig_xerr fig = None).
Proof.
  intros (s_c & txt & _ & Hne & _ & ->)%barplot_Ok_inv. simpl in *.
  rewrite length_fmap. split; [| split].
  - destruct (iloc_0 n (df_sort_desc s_c df)); [done | simpl; lia].
  - rewrite length_iloc_0, (Permutation_length (df_sort_desc_perm s_c df)).
    done.
  - destruct show_std; [| done]. eexists. split; [done |].
    by rewrite length_fmap.
Qed.

Lemma barplot_shape_witness :
  ∃ fig,
    barplot_top_n_functions all_globals
      (aggregate_profiling_df (rows_of dump_ABC)) 7 "tot_time" true = Ok fig ∧
    (1 ≤ length (fig_bars fig))%nat ∧
    length (fig_bars fig)
    = (if decide (0 ≤ 7)%Z
       then Nat.min (Z.to_nat 7)
              (length (aggregate_profiling_df (rows_of dump_ABC)))
       else (length (aggregate_profiling_df (rows_of dump_ABC))
             - Z.to_nat (- 7))%nat) ∧
    (∃ e, fig_xerr fig = Some e ∧ length e = length (fig_bars fig)).
Proof.
  eexists. split; [vm_compute; reflexivity |].
  apply (barplot_shape all_globals
           (aggregate_profiling_df (rows_of dump_ABC)) 7 "tot_time" true).
  vm_compute. reflexivity.
Defined.

(** X13. The selection is a ranking: the rows shown and the rows left out
    make up the table, the rows shown are in descending order of the sort
    criterion, and every row shown ranks at least as high as every row left
    out. *)
Theorem barplot_selection (df : AggFrame) (n : Z) (s_c : Column)
    (show_std : bool) :
  ∃ rest,
    data (barplot_locals df n s_c show_std) ++ rest ≡ₚ df ∧
    StronglySorted (mean_ge s_c) (data (barplot_locals df n s_c show_std)) ∧
    ∀ a b, a ∈ data (barplot_locals df n s_c show_std) → b ∈ rest →
      mean_of s_c b ≤ mean_of s_c a.
Proof.
  simpl. destruct (iloc_0_take n (df_sort_desc s_c df)) as [m ->].
  exists (drop m (df_sort_desc s_c df)).
  pose proof (df_sort_desc_sorted s_c df) as Hsorted.
  rewrite <- (take_drop m (df_sort_desc s_c df)) in Hsorted.
  apply StronglySorted_app in Hsorted as (Hcross & Htake & _).
  split; [by rewrite take_drop, df_sort_desc_perm |].
  split; [done |]. intros a b Ha Hb. by apply Hcross.
Qed.

Lemma load_global_bound (g : Globals) (name : string) :
  name ∈ g → load_global g name = Ok tt.
Proof. intros Hin. unfold load_global. by rewrite bool_decide_eq_true_2. Qed.

Lemma iloc_0_nonempty {A} (n : Z) (l : list A) :
  (1 ≤ n)%Z → l ≠ [] → iloc_0 n l ≠ [].
Proof.
  intros Hn Hl. unfold iloc_0. rewrite decide_True by lia.
  destruct l as [|x l]; [done |].
  destruct (Z.to_nat n) as [|m] eqn:Hm; [lia | done].
Qed.

Lemma df_sort_desc_nonempty (s_c : Column) (df : AggFrame) :
  df ≠ [] → df_sort_desc s_c df ≠ [].
Proof.
  intros Hdf Hnil. apply Hdf.
  apply Permutation_nil. rewrite <- Hnil. apply df_sort_desc_perm.
Qed.










(** X16. Nothing to show: with [N = 0] or with an empty table the renderer
    never returns a figure, whatever the other arguments are. *)
Theorem barplot_nothing_to_show (g : Globals) (df : AggFrame) (n : Z)
    (sort_criterium : string) (show_std : bool) (fig : Figure) :
  n = 0%Z ∨ df = [] →
  barplot_top_n_functions g df n sort_criterium show_std ≠ Ok fig.
Proof.
  intros Hempty (s_c & txt & _ & Hdata & _)%barplot_Ok_inv.
  apply Hdata. simpl. destruct Hempty as [-> | ->]; [done |].
  destruct (iloc_0_take n (df_sort_desc s_c [])) as [m ->].
  unfold df_sort_desc. simpl. by destruct m.
Qed.

Lemma barplot_nothing_to_show_witness :
  barplot_top_n_functions all_globals
    (aggregate_profiling_df (rows_of dump_ABC)) 0 "tot_time" true
  ≠ Ok {| fig_bars := []; fig_xerr := None; fig_xlabel := "tot_time [s]";
          fig_ylabel := EmptyString; fig_text := "0% of total runtime" |}.
Proof.
  apply (barplot_nothing_to_show all_globals
           (aggregate_profiling_df (rows_of dump_ABC)) 0 "tot_time" true).
  by left.
Defined.

Lemma np_sum_zeros (xs : list Qc) : Forall (λ x, x = 0) xs → np_sum xs = 0.
Proof.
  induction 1 as [|x xs -> _ IH]; [done |].
  rewrite np_sum_cons, IH. ring.
Qed.

(** X17. A table without measured time: when every [tot_time] mean is 0
    (and there is a row to show), the fraction is 0/0 and the renderer
    raises [ValueError] when it converts it to a percentage. *)
Theorem barplot_zero_total (g : Globals) (df : AggFrame) (n : Z)
    (sort_criterium : string) (s_c : Column) (show_std : bool) :
  "plt"%string ∈ g → "sns"%string ∈ g →
  column_of_name sort_criterium = Ok s_c →
  (1 ≤ n)%Z → df ≠ [] →
  Forall (λ a, mean_of Col_tot_time a = 0) df →
  barplot_top_n_functions g df n sort_criterium show_std = Raise ValueError.
Proof.
  intros Hplt Hsns Hcol Hn Hdf Hzero.
  assert (Htotal : mean_sum Col_tot_time df = 0).
  { apply np_sum_zeros. by apply Forall_fmap. }
  assert (Htopn : mean_sum Col_tot_time (iloc_0 n (df_sort_desc s_c df)) = 0).
  { apply np_sum_zeros, Forall_fmap.
    destruct (iloc_0_take n (df_sort_desc s_c df)) as [m ->].
    apply Forall_take. by rewrite df_sort_desc_perm. }
  assert (Hdata : data (barplot_locals df n s_c show_std) ≠ []).
  { simpl. apply iloc_0_nonempty; [done |]. by apply df_sort_desc_nonempty. }
  unfold barplot_top_n_functions. rewrite Hcol.
  cbv beta iota zeta delta [mbind result_bind].
  rewrite !load_global_bound by done.
  set (L := barplot_locals df n s_c show_std) in *.
  destruct (data L) as [|row0 rows0] eqn:HL; [done |].
  rewrite fmap_cons. subst L. simpl frac_time. by rewrite Htotal, Htopn.
Qed.

Lemma barplot_zero_total_witness :
  barplot_top_n_functions all_globals
    (aggregate_profiling_df (rows_of dump_idle)) 3 "ncalls" false
  = Raise ValueError.
Proof.
  apply (barplot_zero_total all_globals
           (aggregate_profiling_df (rows_of dump_idle)) 3 "ncalls"
           Col_ncalls false).
  - by_eval.
  - by_eval.
  - reflexivity.
  - lia.
  - by_eval.
  - repeat constructor; by_eval.
Defined.

(** ** Loading the module, again *)

(** X18. Only seaborn is optional: loading the module completes exactly
    when the imports of numpy, pandas, matplotlib, cProfile and pstats all
    succeed, whether seaborn can be imported or not. *)
Theorem load_module_completes_iff (imp : Importer) :
  (load_module imp).1 = Ok tt ↔ ∀ m, m ≠ seaborn → imp m = None.
Proof.
  unfold load_module, module_body, exec_seq, try_except, import_as,
    sns_call, construct, load_global.
  split.
  - intros Hok m Hm.
    destruct (imp numpy) eqn:Hnp; [done |].
    destruct (imp pandas) eqn:Hpd; [done |].
    destruct (imp seaborn) eqn:Hsns; simpl in Hok;
      (destruct (imp matplotlib_pyplot) eqn:Hplt; [done |]);
      (destruct (imp cProfile) eqn:Hcp; [done |]);
      (destruct (imp pstats) eqn:Hps; [done |]);
      by destruct m.
  - intros Hall.
    rewrite (Hall numpy), (Hall pandas), (Hall matplotlib_pyplot),
      (Hall cProfile), (Hall pstats) by done.
    by destruct (imp seaborn).
Qed.

(** ** [Timer] *)

Lemma Qc_of_nat_mono (i j : nat) : (i ≤ j)%nat → Qc_of_nat i ≤ Qc_of_nat j.
Proof.
  intros Hij. unfold Qc_of_nat.
  apply (proj1 (Z2Qc_inj_le (Z.of_nat i) (Z.of_nat j))). lia.
Qed.

Lemma Qcminus_nonneg (a b : Qc) : a ≤ b → 0 ≤ b - a.
Proof. intros Hab. by apply Qcle_minus_iff in Hab. Qed.

Lemma Qcminus_le_compat (a b c d : Qc) : a ≤ c → d ≤ b → a - b ≤ c - d.
Proof.
  intros Hac Hdb. unfold Qcminus.
  apply Qcplus_le_compat; [done | by apply Qcopp_le_compat].
Qed.

(** X19. A timed block.  After [with self: body], whether the body returned
    or raised, the outcome of the block is the outcome of the body, [start]
    and [end] hold the clock readings taken before and after the body, and
    [interval_s] is their difference, also for a timer that was used
    before.  When the clock never runs backwards the interval is not
    negative. *)
Theorem with_Timer_interval {A} (clock : Clock) (self : Timer)
    (body : nat → result A * nat) (w : nat) :
  (∀ i j, (i ≤ j)%nat → clock i ≤ clock j) →
  (∀ w, (w ≤ (body w).2)%nat) →
  let res := with_Timer clock self body w in
  res.1.1 = (body (S w)).1 ∧
  start res.1.2 = Some (clock w) ∧
  end_ res.1.2 = Some (clock (body (S w)).2) ∧
  interval_s res.1.2 = Some (clock (body (S w)).2 - clock w) ∧
  0 ≤ clock (body (S w)).2 - clock w.
Proof.
  intros Hclock Hbody. unfold with_Timer, __enter__, __exit__, time_time.
  pose proof (Hbody (S w)) as Hw.
  destruct (body (S w)) as [r w2]. simpl in *.
  split; [by destruct r |]. repeat split.
  apply Qcminus_nonneg, Hclock. lia.
Qed.

Lemma with_Timer_interval_witness :
  let clock : Clock := λ i, Qc_of_nat i in
  let body : nat → result unit * nat := λ w, (Raise ValueError, (w + 5)%nat) in
  let res := with_Timer clock Timer_new body 0 in
  res.1.1 = (body 1%nat).1 ∧
  start res.1.2 = Some (clock 0%nat) ∧
  end_ res.1.2 = Some (clock (body 1%nat).2) ∧
  interval_s res.1.2 = Some (clock (body 1%nat).2 - clock 0%nat) ∧
  0 ≤ clock (body 1%nat).2 - clock 0%nat.
Proof.
  intros clock body.
  apply (with_Timer_interval clock Timer_new body 0).
  - intros i j Hij. unfold clock. by apply Qc_of_nat_mono.
  - intros w. unfold body. simpl. lia.
Defined.

(** X20. Nested timers: when a timed block is the body of another timed
    block and the clock never runs backwards, the outcome of the outer
    block is that of the inner one and the interval of the inner timer is
    at most the interval of the outer timer. *)
Theorem nested_Timer_intervals {A} (clock : Clock) (outer inner : Timer)
    (body : nat → result A * nat) (w : nat) :
  (∀ i j, (i ≤ j)%nat → clock i ≤ clock j) →
  let res_inner := with_Timer clock inner body (S w) in
  let res_outer :=
    with_Timer clock outer
      (λ w1, ((with_Timer clock inner body w1).1.1,
              (with_Timer clock inner body w1).2)) w in
  res_outer.1.1 = res_inner.1.1 ∧
  ∃ d_inner d_outer,
    interval_s res_inner.1.2 = Some d_inner ∧
    interval_s res_outer.1.2 = Some d_outer ∧
    d_inner ≤ d_outer.
Proof.
  intros Hclock. unfold with_Timer, __enter__, __exit__, time_time.
  destruct (body (S (S w))) as [r w2]. simpl.
  split; [by destruct r |].
  eexists _, _. split; [reflexivity |]. split; [reflexivity |].
  apply Qcminus_le_compat; apply Hclock; lia.
Qed.

Lemma nested_Timer_intervals_witness :
  let clock : Clock := λ i, Qc_of_nat i in
  let body : nat → result unit * nat := λ w, (Ok tt, (w + 5)%nat) in
  let res_inner := with_Timer clock Timer_new body 1 in
  let res_outer :=
    with_Timer clock Timer_new
      (λ w1, ((with_Timer clock Timer_new body w1).1.1,
              (with_Timer clock Timer_new body w1).2)) 0 in
  res_outer.1.1 = res_inner.1.1 ∧
  ∃ d_inner d_outer,
    interval_s res_inner.1.2 = Some d_inner ∧
    interval_s res_outer.1.2 = Some d_outer ∧
    d_inner ≤ d_outer.
Proof.
  intros clock body.
  apply (nested_Timer_intervals clock Timer_new Timer_new body 0).
  intros i j Hij. unfold clock. by apply Qc_of_nat_mono.
Defined.

(** ** [set_label_size] *)

Lemma set_fontsize_lookup (fontsize : Qc) (lab l : loc) (h : TextHeap) :
  set_fontsize fontsize lab h !! l
  = if decide (lab = l)
    then (λ t, {| get_text := get_text t; get_fontsize := fontsize |}) <$> h !! l
    else h !! l.
Proof.
  unfold set_fontsize. rewrite lookup_alter.
  by destruct (decide (lab = l)) as [-> | ?].
Qed.

(** The loop over the labels [labs], read at one location. *)
Lemma set_fontsize_loop_lookup (fontsize : Qc) (labs : list loc) :
  ∀ (h : TextHeap) (l : loc),
  foldl (λ h lab, set_fontsize fontsize lab h) h labs !! l
  = if decide (l ∈ labs)
    then (λ t, {| get_text := get_text t; get_fontsize := fontsize |}) <$> h !! l
    else h !! l.
Proof.
  induction labs as [|lab labs IH]; intros h l; [done |].
  simpl. rewrite IH, set_fontsize_lookup.
  destruct (decide (l ∈ labs)) as [Hin | Hnin];
    destruct (decide (lab = l)) as [Heq | Hne];
    destruct (decide (l ∈ lab :: labs)) as [Hin' | Hnin'];
    try done; try (by destruct (h !! l)); exfalso.
  - apply Hnin'. by apply list_elem_of_further.
  - apply Hnin'. by apply list_elem_of_further.
  - apply Hnin'. rewrite Heq. apply list_elem_of_here.
  - apply elem_of_cons in Hin' as [? | ?]; congruence.
Qed.

(** X21. [set_label_size] sets the font size of every tick label and of
    both axis labels of the axes, leaves their text as it is, touches no
    other object and creates none. *)
Theorem set_label_size_effect (ax : Axes) (fontsize : Qc) (h : TextHeap) :
  (∀ l t, l ∈ all_labels ax → h !! l = Some t →
     set_label_size ax fontsize h !! l
     = Some {| get_text := get_text t; get_fontsize := fontsize |}) ∧
  (∀ l, l ∉ all_labels ax → set_label_size ax fontsize h !! l = h !! l) ∧
  dom (set_label_size ax fontsize h) = dom h.
Proof.
  unfold set_label_size. split; [| split].
  - intros l t Hl Ht. rewrite set_fontsize_loop_lookup, decide_True by done.
    by rewrite Ht.
  - intros l Hl. by rewrite set_fontsize_loop_lookup, decide_False.
  - apply set_eq. intros l. rewrite !elem_of_dom, set_fontsize_loop_lookup.
    destruct (decide (l ∈ all_labels ax)); [| done].
    by rewrite fmap_is_Some.
Qed.

Lemma set_label_size_effect_witness :
  let ax := {| get_xticklabels := [1; 2]%positive;
               get_yticklabels := [3]%positive;
               xaxis_label := 4%positive; yaxis_label := 5%positive |} in
  let h : TextHeap :=
    {[ 1%positive := {| get_text := "0"; get_fontsize := Qc_of_Z 10 |};
       6%positive := {| get_text := "title"; get_fontsize := Qc_of_Z 12 |} ]} in
  (∀ l t, l ∈ all_labels ax → h !! l = Some t →
     set_label_size_default ax h !! l
     = Some {| get_text := get_text t; get_fontsize := Qc_of_Z 14 |}) ∧
  (∀ l, l ∉ all_labels ax → set_label_size_default ax h !! l = h !! l) ∧
  dom (set_label_size_default ax h) = dom h.
Proof.
  intros ax h. apply (set_label_size_effect ax (Qc_of_Z 14) h).
Defined.

(** X22. The last call wins: calling [set_label_size] again on the same
    axes with another size gives what the second call alone gives; in
    particular a second call with the same size changes nothing. *)
Theorem set_label_size_twice (ax : Axes) (f1 f2 : Qc) (h : TextHeap) :
  set_label_size ax f2 (set_label_size ax f1 h) = set_label_size ax f2 h.
Proof.
  apply map_eq. intros l. unfold set_label_size.
  rewrite !set_fontsize_loop_lookup.
  destruct (decide (l ∈ all_labels ax)); [| done].
  by destruct (h !! l).
Qed.

(** * The binary64 layer *)

(** ** The aggregator on doubles *)












(** ** The renderer on doubles *)






